(** * Konpeito profiling runtime

    A shallow embedding of [lib/konpeito/codegen/profile_runtime.c] and the
    properties of its instrumentation hooks, stack-sample aggregator and
    report writer.

    Conventions of the embedding:
    - [uint64_t] values are integers in [Z]; every addition and subtraction
      the C code performs on them is written with its wrap-around modulo
      [2^64] ([u64_add], [u64_sub]);
    - [int] values are integers in [Z]; the guards of the code keep them far
      from the limits of the type;
    - a C array is a list read with [!!!] and written with [<[i:=x]>]; the
      state invariant [wf] records the fixed lengths;
    - a [const char*] is an [option string], [None] being [NULL];
    - [get_time_ns ()] is an input: every hook takes the clock value it
      observes as its first argument [now];
    - the state of one thread is modelled: the globals and that thread's
      [__thread] variables;
    - [konpeito_profile_finalize] is a call like the others: its
      registration with [atexit] is left out, and what it prints is returned
      as a value ([Output]), the decimal fractions [time_ms] and [percent]
      being left as the integers they are printed from. *)

From Stdlib Require Import ZArith Lia Bool String Ascii DecimalString.
From stdpp Require Import base tactics option list strings.

Local Open Scope Z_scope.

(** ** Constants *)

Definition MAX_FUNCTIONS : Z := 4096.
Definition MAX_CALL_DEPTH : Z := 256.
Definition MAX_STACK_SAMPLES : Z := 65536.

(** [sizeof(g_output_path)] and [sizeof(folded_path)] *)
Definition PATH_BUFFER_SIZE : Z := 1024.

(** ** 64-bit unsigned arithmetic *)

Definition u64_add (a b : Z) : Z := (a + b) mod 2 ^ 64.
Definition u64_sub (a b : Z) : Z := (a - b) mod 2 ^ 64.
Definition is_u64 (a : Z) : Prop := 0 <= a < 2 ^ 64.

(** ** Data *)

Record FunctionProfile := mkFunctionProfile {
  name : option string;
  call_count : Z;
  total_time_ns : Z
}.

(** [func_ids] holds the cells [func_ids[0 .. depth)] of the C array, the
    only ones the code ever writes or reads. *)
Record StackSample := mkStackSample {
  func_ids : list Z;
  depth : Z;
  time_ns : Z
}.

Record CallStackEntry := mkCallStackEntry {
  func_id : Z;
  entry_time : Z
}.

(** The zero-initialised cells of the static arrays. *)
Definition zero_profile : FunctionProfile :=
  {| name := None; call_count := 0; total_time_ns := 0 |}.
Definition zero_entry : CallStackEntry :=
  {| func_id := 0; entry_time := 0 |}.

Global Instance FunctionProfile_inhabited : Inhabited FunctionProfile :=
  populate zero_profile.
Global Instance CallStackEntry_inhabited : Inhabited CallStackEntry :=
  populate zero_entry.
Global Instance StackSample_inhabited : Inhabited StackSample :=
  populate {| func_ids := []; depth := 0; time_ns := 0 |}.

(** The globals and the thread-local variables.  [g_stack_samples] is the
    occupied prefix of the C array, so that [g_num_stack_samples] is its
    length. *)
Record State := mkState {
  g_profiles : list FunctionProfile;
  g_num_functions : Z;
  g_output_path : string;
  g_initialized : bool;
  g_stack_samples : list StackSample;
  tls_call_stack : list CallStackEntry;
  tls_stack_depth : Z;
  tls_current_stack : list Z
}.

Definition g_num_stack_samples (st : State) : Z :=
  Z.of_nat (length (g_stack_samples st)).

(** The state a process starts with (the static initialisers). *)
Definition initial_state : State :=
  {| g_profiles := replicate (Z.to_nat MAX_FUNCTIONS) zero_profile;
     g_num_functions := 0;
     g_output_path := "konpeito_profile.json";
     g_initialized := false;
     g_stack_samples := [];
     tls_call_stack := replicate (Z.to_nat MAX_CALL_DEPTH) zero_entry;
     tls_stack_depth := 0;
     tls_current_stack := replicate (Z.to_nat MAX_CALL_DEPTH) 0 |}.

(** ** Stack sample aggregator *)

(** The inner loop of [find_or_create_stack_sample]: compares the cells
    [j .. j+n) of a sample with those of the stack. *)
Fixpoint ids_match (ids stack : list Z) (j n : nat) : bool :=
  match n with
  | O => true
  | S n' =>
      if (ids !!! j) =? (stack !!! j) then ids_match ids stack (S j) n'
      else false
  end.

Definition sample_matches (stack : list Z) (dep : Z) (s : StackSample)
    : bool :=
  if depth s =? dep then ids_match (func_ids s) stack 0 (Z.to_nat dep)
  else false.

(** The outer loop: index of the first matching sample, scanning from [i]. *)
Fixpoint search_samples (samples : list StackSample) (i : Z)
    (stack : list Z) (dep : Z) : option Z :=
  match samples with
  | [] => None
  | s :: rest =>
      if sample_matches stack dep s then Some i
      else search_samples rest (i + 1) stack dep
  end.

(** The copy loop: the cells [stack[0 .. depth)]. *)
Definition copy_stack (stack : list Z) (dep : Z) : list Z :=
  (fun j => stack !!! j) <$> seq 0 (Z.to_nat dep).

(** Returns the index ([-1] when the table is full) and the new table. *)
Definition find_or_create_stack_sample (samples : list StackSample)
    (stack : list Z) (dep : Z) : Z * list StackSample :=
  match search_samples samples 0 stack dep with
  | Some i => (i, samples)
  | None =>
      if MAX_STACK_SAMPLES <=? Z.of_nat (length samples) then (-1, samples)
      else (Z.of_nat (length samples),
            samples ++ [ {| func_ids := copy_stack stack dep;
                            depth := dep;
                            time_ns := 0 |} ])
  end.

Definition add_sample_time (v : Z) (s : StackSample) : StackSample :=
  {| func_ids := func_ids s; depth := depth s;
     time_ns := u64_add (time_ns s) v |}.

(** [record_stack_time] on the table alone, for the stack and depth of the
    calling thread. *)
Definition record_sample (samples : list StackSample) (stack : list Z)
    (dep : Z) (v : Z) : list StackSample :=
  if dep <=? 0 then samples
  else
    let '(idx, samples') := find_or_create_stack_sample samples stack dep in
    if 0 <=? idx then alter (add_sample_time v) (Z.to_nat idx) samples'
    else samples'.

Definition record_stack_time (v : Z) (st : State) : State :=
  {| g_profiles := g_profiles st;
     g_num_functions := g_num_functions st;
     g_output_path := g_output_path st;
     g_initialized := g_initialized st;
     g_stack_samples :=
       record_sample (g_stack_samples st) (tls_current_stack st)
         (tls_stack_depth st) v;
     tls_call_stack := tls_call_stack st;
     tls_stack_depth := tls_stack_depth st;
     tls_current_stack := tls_current_stack st |}.

(** ** Instrumentation hooks *)

Definition konpeito_profile_init (num_functions : Z)
    (output_path : option string) (st : State) : State :=
  if g_initialized st then st
  else
    {| g_profiles := replicate (Z.to_nat MAX_FUNCTIONS) zero_profile;
       g_num_functions :=
         if num_functions <? MAX_FUNCTIONS then num_functions
         else MAX_FUNCTIONS;
       g_output_path :=
         match output_path with
         | Some p =>
             if Z.of_nat (String.length p) <? PATH_BUFFER_SIZE then p
             else g_output_path st
         | None => g_output_path st
         end;
       g_initialized := true;
       g_stack_samples := g_stack_samples st;
       tls_call_stack := tls_call_stack st;
       tls_stack_depth := tls_stack_depth st;
       tls_current_stack := tls_current_stack st |}.

Definition register_call (func_name : option string) (p : FunctionProfile)
    : FunctionProfile :=
  {| name := match name p with
             | None => func_name
             | Some n => Some n
             end;
     call_count := u64_add (call_count p) 1;
     total_time_ns := total_time_ns p |}.

Definition konpeito_profile_enter (now : Z) (func_id : Z)
    (func_name : option string) (st : State) : State :=
  if negb (g_initialized st) then st
  else if (func_id <? 0) || (MAX_FUNCTIONS <=? func_id) then st
  else if MAX_CALL_DEPTH <=? tls_stack_depth st then st
  else
    let d := Z.to_nat (tls_stack_depth st) in
    {| g_profiles := alter (register_call func_name) (Z.to_nat func_id)
                       (g_profiles st);
       g_num_functions := g_num_functions st;
       g_output_path := g_output_path st;
       g_initialized := g_initialized st;
       g_stack_samples := g_stack_samples st;
       tls_call_stack :=
         <[d := {| func_id := func_id; entry_time := now |}]>
           (tls_call_stack st);
       tls_stack_depth := tls_stack_depth st + 1;
       tls_current_stack := <[d := func_id]> (tls_current_stack st) |}.

Definition add_total_time (elapsed : Z) (p : FunctionProfile)
    : FunctionProfile :=
  {| name := name p; call_count := call_count p;
     total_time_ns := u64_add (total_time_ns p) elapsed |}.

(** The frame [tls_call_stack[tls_stack_depth - 1]]. *)
Definition top_frame (st : State) : CallStackEntry :=
  tls_call_stack st !!! Z.to_nat (tls_stack_depth st - 1).

Definition pop_frame (st : State) : State :=
  {| g_profiles := g_profiles st;
     g_num_functions := g_num_functions st;
     g_output_path := g_output_path st;
     g_initialized := g_initialized st;
     g_stack_samples := g_stack_samples st;
     tls_call_stack := tls_call_stack st;
     tls_stack_depth := tls_stack_depth st - 1;
     tls_current_stack := tls_current_stack st |}.

Definition add_function_time (f : Z) (elapsed : Z) (st : State) : State :=
  {| g_profiles := alter (add_total_time elapsed) (Z.to_nat f) (g_profiles st);
     g_num_functions := g_num_functions st;
     g_output_path := g_output_path st;
     g_initialized := g_initialized st;
     g_stack_samples := g_stack_samples st;
     tls_call_stack := tls_call_stack st;
     tls_stack_depth := tls_stack_depth st;
     tls_current_stack := tls_current_stack st |}.

Definition konpeito_profile_exit (now : Z) (func_id : Z) (st : State)
    : State :=
  if negb (g_initialized st) then st
  else if (func_id <? 0) || (MAX_FUNCTIONS <=? func_id) then st
  else if tls_stack_depth st <=? 0 then st
  else
    let exit_time := now in
    let '{| func_id := top_id; entry_time := t0 |} := top_frame st in
    if top_id =? func_id then
      let elapsed := u64_sub exit_time t0 in
      pop_frame (record_stack_time elapsed
                   (add_function_time func_id elapsed st))
    else pop_frame st.

(** ** Report writer *)

(** *** Folded-stack file *)

(** The path of the folded file: [strncpy] into a buffer of
    [PATH_BUFFER_SIZE] bytes, [strstr] for [".json"], then [strcpy] of
    [".folded"] over the match or a bounded [strncat].  [None] stands for the
    [strcpy] that writes past the end of the buffer (undefined behaviour). *)
Definition folded_path_of (output_path : string) : option string :=
  let folded_path :=
    substring 0 (Z.to_nat (PATH_BUFFER_SIZE - 1)) output_path in
  match index 0 ".json" folded_path with
  | Some ext =>
      if PATH_BUFFER_SIZE
         <? Z.of_nat ext + Z.of_nat (String.length ".folded") + 1
      then None
      else Some (substring 0 ext folded_path +:+ ".folded")
  | None =>
      let room :=
        PATH_BUFFER_SIZE - Z.of_nat (String.length folded_path) - 1 in
      Some (folded_path +:+ substring 0 (Z.to_nat room) ".folded")
  end.

(** One line of the folded file: the text before the blank and the number
    printed after it. *)
Record FoldedLine := mkFoldedLine {
  line_stack : string;
  line_samples : Z
}.

(** The loop over [j] that writes the names of one sample, from cell [j]
    for [n] cells. *)
Fixpoint write_stack (profiles : list FunctionProfile) (ids : list Z)
    (j n : nat) : string :=
  match n with
  | O => ""
  | S n' =>
      let func_id := ids !!! j in
      match name (profiles !!! Z.to_nat func_id) with
      | Some nm =>
          (if (0 <? j)%nat then ";" else "") +:+ nm +:+
          write_stack profiles ids (S j) n'
      | None => write_stack profiles ids (S j) n'
      end
  end.

Definition sample_count (t : Z) : Z :=
  let samples := t / 1000 in
  if samples =? 0 then 1 else samples.

Definition folded_line (profiles : list FunctionProfile) (s : StackSample)
    : option FoldedLine :=
  if time_ns s =? 0 then None
  else Some {| line_stack :=
                 write_stack profiles (func_ids s) 0 (Z.to_nat (depth s));
               line_samples := sample_count (time_ns s) |}.

Definition folded_lines (st : State) : list FoldedLine :=
  omap (folded_line (g_profiles st)) (g_stack_samples st).

(** The text [fprintf] produces with [%llu]. *)
Definition decimal (n : Z) : string :=
  NilZero.string_of_uint (N.to_uint (Z.to_N n)).

Definition newline : string := String (ascii_of_nat 10) "".

Definition render_line (l : FoldedLine) : string :=
  line_stack l +:+ " " +:+ decimal (line_samples l) +:+ newline.

Definition folded_text (st : State) : string :=
  String.concat "" (render_line <$> folded_lines st).

(** *** Per-function report and console table *)

(** The loops [for (i = 0; i < g_num_functions; i++)]. *)
Definition reported_ids (st : State) : list nat :=
  seq 0 (Z.to_nat (g_num_functions st)).

Definition total_time (st : State) : Z :=
  foldl (fun acc i =>
           let p := g_profiles st !!! i in
           match name p with
           | Some _ => u64_add acc (total_time_ns p)
           | None => acc
           end) 0 (reported_ids st).

Fixpoint write_json_string_body (str : string) : string :=
  match str with
  | EmptyString => ""
  | String c rest =>
      (if Ascii.eqb c (ascii_of_nat 34)
       then String "\" (String (ascii_of_nat 34) "")
       else if Ascii.eqb c "\" then "\\"
       else if Ascii.eqb c (ascii_of_nat 10) then "\n"
       else if Ascii.eqb c (ascii_of_nat 13) then "\r"
       else if Ascii.eqb c (ascii_of_nat 9) then "\t"
       else String c "") +:+ write_json_string_body rest
  end.

Definition write_json_string (str : string) : string :=
  String (ascii_of_nat 34) (write_json_string_body str)
  +:+ String (ascii_of_nat 34) "".

(** One object of the ["functions"] array.  [time_ms] and [percent] are
    printed from [fn_time_ns] and the total. *)
Record JsonFunction := mkJsonFunction {
  fn_name : string;
  fn_calls : Z;
  fn_time_ns : Z
}.

Definition json_functions (st : State) : list JsonFunction :=
  omap (fun i =>
          let p := g_profiles st !!! i in
          match name p with
          | None => None
          | Some nm =>
              Some {| fn_name := write_json_string nm;
                      fn_calls := call_count p;
                      fn_time_ns := total_time_ns p |}
          end) (reported_ids st).

Definition truncated_name (nm : string) : string :=
  if (40 <? String.length nm)%nat then substring 0 37 nm +:+ "..."
  else substring 0 40 nm.

Record ConsoleRow := mkConsoleRow {
  row_name : string;
  row_calls : Z;
  row_time_ns : Z
}.

Definition console_rows (st : State) : list ConsoleRow :=
  omap (fun i =>
          let p := g_profiles st !!! i in
          match name p with
          | None => None
          | Some nm =>
              Some {| row_name := truncated_name nm;
                      row_calls := call_count p;
                      row_time_ns := total_time_ns p |}
          end) (reported_ids st).

Record JsonReport := mkJsonReport {
  functions : list JsonFunction;
  total_time_ns_sum : Z
}.

(** What one run of [konpeito_profile_finalize] writes: the folded file
    (path and lines), the JSON file (path and content) and the table on the
    error stream; [None] for an artifact that is not written. *)
Record Output := mkOutput {
  folded_file : option (string * list FoldedLine);
  json_file : option (string * JsonReport);
  console_table : option (list ConsoleRow)
}.

Definition clear_initialized (st : State) : State :=
  {| g_profiles := g_profiles st;
     g_num_functions := g_num_functions st;
     g_output_path := g_output_path st;
     g_initialized := false;
     g_stack_samples := g_stack_samples st;
     tls_call_stack := tls_call_stack st;
     tls_stack_depth := tls_stack_depth st;
     tls_current_stack := tls_current_stack st |}.

(** [write_flame_graph_folded]; [fopen_ok] tells whether a path can be
    opened for writing. *)
Definition write_flame_graph_folded (fopen_ok : string -> bool) (st : State)
    : option (option (string * list FoldedLine)) :=
  match folded_path_of (g_output_path st) with
  | None => None
  | Some folded_path =>
      if fopen_ok folded_path then Some (Some (folded_path, folded_lines st))
      else Some None
  end.

Definition konpeito_profile_finalize (fopen_ok : string -> bool) (st : State)
    : option (State * Output) :=
  if negb (g_initialized st) then
    Some (st, {| folded_file := None; json_file := None;
                 console_table := None |})
  else
    match write_flame_graph_folded fopen_ok st with
    | None => None
    | Some folded =>
        let st' := clear_initialized st in
        if fopen_ok (g_output_path st) then
          Some (st', {| folded_file := folded;
                        json_file :=
                          Some (g_output_path st,
                                {| functions := json_functions st;
                                   total_time_ns_sum := total_time st |});
                        console_table := Some (console_rows st) |})
        else
          Some (st', {| folded_file := folded; json_file := None;
                        console_table := None |})
    end.

(** ** Sequences of calls *)

(** The calls instrumented code makes at function boundaries, each with the
    clock value it observes. *)
Inductive hook :=
  | Enter (now : Z) (func_id : Z) (func_name : option string)
  | Exit (now : Z) (func_id : Z).

Definition hook_step (st : State) (h : hook) : State :=
  match h with
  | Enter now f nm => konpeito_profile_enter now f nm st
  | Exit now f => konpeito_profile_exit now f st
  end.

Definition run_hooks (st : State) (hs : list hook) : State :=
  foldl hook_step st hs.

(** The whole interface.  A run is [None] when a call has no defined
    behaviour. *)
Inductive call :=
  | Init (num_functions : Z) (output_path : option string)
  | Hook (h : hook)
  | Finalize.

Definition step (fopen_ok : string -> bool) (st : State) (c : call)
    : option State :=
  match c with
  | Init n p => Some (konpeito_profile_init n p st)
  | Hook h => Some (hook_step st h)
  | Finalize => fst <$> konpeito_profile_finalize fopen_ok st
  end.

Fixpoint run (fopen_ok : string -> bool) (st : State) (cs : list call)
    : option State :=
  match cs with
  | [] => Some st
  | c :: cs' =>
      match step fopen_ok st c with
      | Some st' => run fopen_ok st' cs'
      | None => None
      end
  end.

(** *** Shapes of hook sequences *)

(** [nesting open hs] follows the calls of [hs] from the open calls [open]
    (innermost first): every exit must name the innermost open call.  The
    result is the list of calls still open at the end. *)
Fixpoint nesting (open : list Z) (hs : list hook) : option (list Z) :=
  match hs with
  | [] => Some open
  | Enter _ f _ :: hs' => nesting (f :: open) hs'
  | Exit _ f :: hs' =>
      match open with
      | g :: open' => if f =? g then nesting open' hs' else None
      | [] => None
      end
  end.

(** The largest number of simultaneously open calls, from [d] open calls. *)
Fixpoint max_depth (d : nat) (hs : list hook) : nat :=
  match hs with
  | [] => d
  | Enter _ _ _ :: hs' => max_depth (S d) hs'
  | Exit _ _ :: hs' => Nat.max d (max_depth (Nat.pred d) hs')
  end.

Definition hook_id (h : hook) : Z :=
  match h with
  | Enter _ f _ => f
  | Exit _ f => f
  end.

Definition ids_in_range (hs : list hook) : Prop :=
  Forall (fun h => 0 <= hook_id h < MAX_FUNCTIONS) hs.

(** Number of [enter (f, ...)] invocations. *)
Fixpoint count_enters (f : Z) (hs : list hook) : Z :=
  match hs with
  | [] => 0
  | Enter _ g _ :: hs' => (if g =? f then 1 else 0) + count_enters f hs'
  | Exit _ _ :: hs' => count_enters f hs'
  end.

(** ** State invariant *)

Record wf (st : State) : Prop := mkWf {
  wf_profiles : length (g_profiles st) = Z.to_nat MAX_FUNCTIONS;
  wf_call_stack : length (tls_call_stack st) = Z.to_nat MAX_CALL_DEPTH;
  wf_current_stack :
    length (tls_current_stack st) = Z.to_nat MAX_CALL_DEPTH;
  wf_depth : 0 <= tls_stack_depth st <= MAX_CALL_DEPTH;
  wf_frames :
    forall j : nat, (j < Z.to_nat (tls_stack_depth st))%nat ->
      0 <= func_id (tls_call_stack st !!! j) < MAX_FUNCTIONS /\
      tls_current_stack st !!! j = func_id (tls_call_stack st !!! j);
  wf_samples : Forall (fun s => is_u64 (time_ns s)) (g_stack_samples st)
}.

(** ** Vocabulary of the statements *)

(** The samples of a table that have the shape [stack[0 .. dep)]. *)
Definition matching (stack : list Z) (dep : Z) (samples : list StackSample)
    : list StackSample :=
  List.filter (sample_matches stack dep) samples.

(** No sample of the table has that shape. *)
Definition absent (stack : list Z) (dep : Z) (samples : list StackSample)
    : Prop :=
  Forall (fun s => sample_matches stack dep s = false) samples.

(** [n] samples of pairwise different two-frame shapes, numbered from [i]. *)
Fixpoint two_frame_samples (i : Z) (n : nat) : list StackSample :=
  match n with
  | O => []
  | S n' =>
      {| func_ids := [i / MAX_FUNCTIONS; i mod MAX_FUNCTIONS];
         depth := 2; time_ns := 1 |} :: two_frame_samples (i + 1) n'
  end.

(** A table holding [MAX_STACK_SAMPLES] samples. *)
Definition full_table : list StackSample :=
  two_frame_samples 0 (Z.to_nat MAX_STACK_SAMPLES).



(** [n] nested calls of function [f], then the [n] returns. *)
Definition nested_calls (n : nat) (f : Z) (nm : option string) : list hook :=
  replicate n (Enter 0 f nm) ++ replicate n (Exit 1 f).

Definition nonzero_time (s : StackSample) : bool := negb (time_ns s =? 0).

(** The line of the folded file written for a sample. *)
Definition line_of (profiles : list FunctionProfile) (s : StackSample)
    : FoldedLine :=
  {| line_stack := write_stack profiles (func_ids s) 0 (Z.to_nat (depth s));
     line_samples :=
       if time_ns s / 1000 =? 0 then 1 else time_ns s / 1000 |}.

(** The folded path as the specification words it: a [".json"] suffix is
    replaced by [".folded"], and [".folded"] is appended to a path without
    that suffix. *)
Definition has_json_suffix (p : string) : bool :=
  (5 <=? String.length p)%nat &&
  String.eqb (substring (String.length p - 5) 5 p) ".json".

Definition spec_folded_path (p : string) : string :=
  if has_json_suffix p then
    substring 0 (String.length p - 5) p +:+ ".folded"
  else p +:+ ".folded".

(** The name list of a folded line as the specification words it: the
    registered names of the entries of the sample, outermost first, joined
    by semicolons. *)
Definition spec_stack_names (profiles : list FunctionProfile)
    (s : StackSample) : string :=
  String.concat ";"
    (omap (fun id : Z => name (profiles !!! Z.to_nat id))
       (take (Z.to_nat (depth s)) (func_ids s))).


(** ** Concrete states *)

(** An initialised state whose sample table is [full_table], on a thread
    that has the single function 7 open. *)
Definition full_state : State :=
  {| g_profiles := replicate (Z.to_nat MAX_FUNCTIONS) zero_profile;
     g_num_functions := 10;
     g_output_path := "konpeito_profile.json";
     g_initialized := true;
     g_stack_samples := full_table;
     tls_call_stack :=
       <[0%nat := {| func_id := 7; entry_time := 0 |}]>
         (replicate (Z.to_nat MAX_CALL_DEPTH) zero_entry);
     tls_stack_depth := 1;
     tls_current_stack :=
       <[0%nat := 7]> (replicate (Z.to_nat MAX_CALL_DEPTH) 0) |}.


(** Two sessions: in the first, function [1] runs inside function [0]; in
    the second, after a new initialisation, function [1] runs alone. *)
Definition two_sessions : list call :=
  [Init 10 None; Hook (Enter 0 0 (Some "A"%string));
   Hook (Enter 1000 1 (Some "B"%string)); Hook (Exit 3000 1);
   Hook (Exit 4000 0); Finalize;
   Init 10 None; Hook (Enter 5000 1 (Some "B"%string)); Hook (Exit 6000 1)].


(** A state with one open call, of function 3. *)
Definition one_open : State :=
  run_hooks (konpeito_profile_init 10 None initial_state)
    [Enter 0 3 (Some "f"%string)].

(** The state after the return from that call, 1500 ns after its entry. *)
Definition one_returned : State := konpeito_profile_exit 1500 3 one_open.

(** One more nested call than the tracker holds. *)
Definition too_deep : list hook :=
  nested_calls (S (Z.to_nat MAX_CALL_DEPTH)) 0 (Some "f"%string).






(** ** Clock *)

Definition u64_mul (a b : Z) : Z := (a * b) mod 2 ^ 64.

(** [get_time_ns] on the platforms with [clock_gettime]: the reading
    [ts] of the monotonic clock, with its two fields cast to [uint64_t]. *)
Definition get_time_ns (tv_sec tv_nsec : Z) : Z :=
  u64_add (u64_mul (tv_sec mod 2 ^ 64) 1000000000) (tv_nsec mod 2 ^ 64).

(** ** Vocabulary of the further statements *)

(** The time a well-nested sequence spends in calls of [f], every call
    counted from its enter to its exit; [open] holds the open calls,
    innermost first, each with the clock value of its enter. *)
Fixpoint time_spent (open : list (Z * Z)) (f : Z) (hs : list hook) : Z :=
  match hs with
  | [] => 0
  | Enter now g _ :: hs' => time_spent ((g, now) :: open) f hs'
  | Exit now g :: hs' =>
      match open with
      | (g', t0) :: open' =>
          (if g' =? f then u64_sub now t0 else 0) + time_spent open' f hs'
      | [] => time_spent [] f hs'
      end
  end.

(** The shape of a sample: what [find_or_create_stack_sample] compares. *)
Definition shape (s : StackSample) : list Z * Z := (func_ids s, depth s).

(** A sample as a matched exit makes it: as many ids as its depth says,
    between one and [MAX_CALL_DEPTH] of them, each the id of a function
    table cell. *)
Definition sample_ok (s : StackSample) : Prop :=
  depth s = Z.of_nat (length (func_ids s)) /\
  0 < depth s <= MAX_CALL_DEPTH /\
  Forall (fun id => 0 <= id < MAX_FUNCTIONS) (func_ids s).

(** What every run keeps of the globals besides [wf]. *)
Record globals_ok (st : State) : Prop := mkGlobalsOk {
  ok_samples : Forall sample_ok (g_stack_samples st);
  ok_capacity : g_num_stack_samples st <= MAX_STACK_SAMPLES;
  ok_distinct : NoDup (shape <$> g_stack_samples st);
  ok_path : Z.of_nat (String.length (g_output_path st)) < PATH_BUFFER_SIZE;
  ok_num_functions : g_num_functions st <= MAX_FUNCTIONS
}.

(** The inverse of the five escapes of [write_json_string]. *)
Fixpoint json_unescape (s : string) : string :=
  match s with
  | EmptyString => EmptyString
  | String c rest =>
      if Ascii.eqb c "\" then
        match rest with
        | EmptyString => String c EmptyString
        | String e rest' =>
            String (if Ascii.eqb e "n" then ascii_of_nat 10
                    else if Ascii.eqb e "r" then ascii_of_nat 13
                    else if Ascii.eqb e "t" then ascii_of_nat 9
                    else e) (json_unescape rest')
        end
      else String c (json_unescape rest)
  end.

(** The characters [write_json_string] escapes. *)
Definition json_special (c : ascii) : bool :=
  Ascii.eqb c (ascii_of_nat 34) || Ascii.eqb c "\" ||
  Ascii.eqb c (ascii_of_nat 10) || Ascii.eqb c (ascii_of_nat 13) ||
  Ascii.eqb c (ascii_of_nat 9).

Definition sum_times (l : list JsonFunction) : Z :=
  foldr (fun e acc => fn_time_ns e + acc) 0 l.

(** The state after [two_sessions]. *)
Definition after_two_sessions : State :=
  default initial_state (run (fun _ => true) initial_state two_sessions).

(** The frames of the thread are those of the open calls [open]
    (innermost first, each with the clock value of its enter). *)
Definition frames_hold (st : State) (open : list (Z * Z)) : Prop :=
  tls_stack_depth st = Z.of_nat (length open) /\
  forall (k : nat) g t, open !! k = Some (g, t) ->
    tls_call_stack st !!! (length open - S k)%nat
    = {| func_id := g; entry_time := t |}.

(** Function [1] called twice from function [0], which is called once. *)
Definition two_inner_calls : list hook :=
  [Enter 100 0 (Some "A"%string); Enter 200 1 (Some "B"%string); Exit 250 1;
   Enter 300 1 (Some "B"%string); Exit 380 1; Exit 1000 0].

(** The names [l], each after a semicolon. *)
Fixpoint prefixed (l : list string) : string :=
  match l with
  | [] => ""
  | x :: l' => (";" +:+ x +:+ prefixed l')%string
  end.

(** The calls and the time a row of the console table or an object of the
    JSON report shows. *)
Definition row_numbers (r : ConsoleRow) : Z * Z := (row_calls r, row_time_ns r).
Definition fn_numbers (e : JsonFunction) : Z * Z := (fn_calls e, fn_time_ns e).

(** A path of 1023 characters, the longest [konpeito_profile_init]
    accepts. *)
Definition longest_path : string :=
  string_of_list_ascii (replicate 1023 "a"%char).

(** Every enter of the sequence passes a name. *)
Definition names_given (hs : list hook) : Prop :=
  Forall (fun h => match h with
                   | Enter _ _ None => False
                   | _ => True
                   end) hs.

(** The function [id] has a registered name. *)
Definition named (st : State) (id : Z) : Prop :=
  is_Some (name (g_profiles st !!! Z.to_nat id)).

(** The functions of the open frames and of the samples all have names. *)
Definition all_named (st : State) : Prop :=
  (forall j : nat, (j < Z.to_nat (tls_stack_depth st))%nat ->
     named st (tls_current_stack st !!! j)) /\
  Forall (Forall (named st)) (func_ids <$> g_stack_samples st).

(** ** Shapes by equality of ids *)

(** The shape of the calling thread's stack: its first [dep] function ids
    and their number. *)
Definition stack_shape (stack : list Z) (dep : Z) : list Z * Z :=
  (take (Z.to_nat dep) stack, dep).

(** The samples of a table that have the shape [sh]. *)
Definition with_shape (sh : list Z * Z) (samples : list StackSample)
    : list StackSample :=
  filter (fun s => shape s = sh) samples.

(** A sample holds as many ids as its depth says. *)
Definition sized (s : StackSample) : Prop :=
  depth s = Z.of_nat (length (func_ids s)).

(** A table with three samples; two of them have two entries and differ
    in the second one only. *)
Definition small_table : list StackSample :=
  [ {| func_ids := [1; 2]; depth := 2; time_ns := 40 |};
    {| func_ids := [1]; depth := 1; time_ns := 7 |};
    {| func_ids := [1; 3]; depth := 2; time_ns := 9 |} ].

(** The stack cells of a thread in which function 3 runs inside
    function 1, and of one in which function 4 does. *)
Definition stack_1_3 : list Z :=
  <[1%nat := 3]> (<[0%nat := 1]> (replicate (Z.to_nat MAX_CALL_DEPTH) 0)).
Definition stack_1_4 : list Z :=
  <[1%nat := 4]> (<[0%nat := 1]> (replicate (Z.to_nat MAX_CALL_DEPTH) 0)).

(** ** The folded file as text *)











(** * Properties *)

(** ** 64-bit arithmetic *)

Lemma u64_add_is_u64 a b : is_u64 (u64_add a b).
Proof. unfold is_u64, u64_add. apply Z.mod_pos_bound. lia. Qed.

Lemma u64_add_assoc a b c : u64_add (u64_add a b) c = u64_add a (b + c).
Proof.
  unfold u64_add. rewrite Zplus_mod_idemp_l. f_equal. lia.
Qed.

Lemma u64_add_mod_l a b : u64_add (a mod 2 ^ 64) b = u64_add a b.
Proof. unfold u64_add. by rewrite Zplus_mod_idemp_l. Qed.

(** ** Stack sample aggregator *)

Section Aggregator.
Variable stack : list Z.
Variable dep : Z.

Lemma ids_match_true ids j n :
  (forall k : nat, (j <= k < j + n)%nat -> ids !!! k = stack !!! k) ->
  ids_match ids stack j n = true.
Proof.
  revert j. induction n as [|n IH]; intros j Hk; simpl; [done|].
  rewrite (Hk j) by lia. rewrite Z.eqb_refl.
  apply IH. intros k ?. apply Hk. lia.
Qed.

Lemma copy_stack_lookup (k : nat) :
  (k < Z.to_nat dep)%nat -> copy_stack stack dep !!! k = stack !!! k.
Proof.
  intros Hk. unfold copy_stack.
  rewrite list_lookup_total_alt, list_lookup_fmap.
  by rewrite lookup_seq_lt.
Qed.

Lemma copy_stack_matches t :
  sample_matches stack dep
    {| func_ids := copy_stack stack dep; depth := dep; time_ns := t |}
  = true.
Proof.
  unfold sample_matches. simpl. rewrite Z.eqb_refl. simpl.
  apply ids_match_true. intros k ?. apply copy_stack_lookup. lia.
Qed.

Lemma add_sample_time_matches v s :
  sample_matches stack dep (add_sample_time v s) = sample_matches stack dep s.
Proof. done. Qed.

Lemma search_samples_None samples i :
  search_samples samples i stack dep = None <-> absent stack dep samples.
Proof.
  unfold absent. revert i.
  induction samples as [|s samples IH]; intros i; simpl.
  - split; [constructor | done].
  - destruct (sample_matches stack dep s) eqn:Hs.
    + split; [done|]. intros H. inversion H; congruence.
    + rewrite IH. split; [by constructor | by inversion 1].
Qed.

(** A successful search returns the first matching position. *)
Lemma search_samples_Some samples i k :
  search_samples samples i stack dep = Some k ->
  exists (n : nat) s,
    k = i + Z.of_nat n /\ samples !! n = Some s /\
    sample_matches stack dep s = true /\ absent stack dep (take n samples).
Proof.
  revert i. induction samples as [|s samples IH]; intros i; simpl; [done|].
  destruct (sample_matches stack dep s) eqn:Hs.
  - intros [= <-]. exists 0%nat, s. repeat split; [lia | done | constructor].
  - intros (n & s' & -> & Hn & Hs' & Hpre)%IH.
    exists (S n), s'. repeat split; [lia | done | done |].
    simpl. by constructor.
Qed.

Lemma search_samples_fresh samples s i :
  absent stack dep samples -> sample_matches stack dep s = true ->
  search_samples (samples ++ [s]) i stack dep
  = Some (i + Z.of_nat (length samples)).
Proof.
  intros Habs Hs. revert i.
  induction Habs as [|s' samples Hs' _ IH]; intros i; simpl.
  - rewrite Hs. f_equal. lia.
  - rewrite Hs', IH. f_equal. lia.
Qed.

Lemma matching_absent samples :
  absent stack dep samples -> matching stack dep samples = [].
Proof.
  unfold matching. induction 1 as [|s samples Hs _ IH]; simpl; [done|].
  by rewrite Hs.
Qed.

Lemma matching_app l1 l2 :
  matching stack dep (l1 ++ l2)
  = matching stack dep l1 ++ matching stack dep l2.
Proof. apply List.filter_app. Qed.

Lemma matching_alter_length v (n : nat) samples :
  length (matching stack dep (alter (add_sample_time v) n samples))
  = length (matching stack dep samples).
Proof.
  unfold matching. revert n.
  induction samples as [|s samples IH]; intros [|n]; simpl; try done.
  - rewrite add_sample_time_matches. by destruct (sample_matches _ _ s).
  - specialize (IH n). unfold alter in IH.
    destruct (sample_matches _ _ s); simpl; by rewrite IH.
Qed.

(** Attribution to a shape that is in the table: the first matching
    sample gets the time, the table keeps its length. *)
Lemma record_sample_present samples v (k : Z) :
  0 < dep ->
  search_samples samples 0 stack dep = Some k ->
  0 <= k /\
  record_sample samples stack dep v
  = alter (add_sample_time v) (Z.to_nat k) samples.
Proof.
  intros Hdep Hk. unfold record_sample, find_or_create_stack_sample.
  rewrite Hk. destruct (search_samples_Some _ _ _ Hk) as (n & s & -> & _).
  destruct (Z.leb_spec dep 0); [lia|].
  destruct (Z.leb_spec 0 (0 + Z.of_nat n)); [split; [lia | done] | lia].
Qed.

(** Attribution to a new shape while the table has room: one sample is
    appended, holding the attributed time. *)
Lemma record_sample_fresh samples v :
  0 < dep -> absent stack dep samples ->
  Z.of_nat (length samples) < MAX_STACK_SAMPLES ->
  record_sample samples stack dep v
  = samples ++ [ {| func_ids := copy_stack stack dep; depth := dep;
                    time_ns := u64_add 0 v |} ].
Proof.
  intros Hdep Habs Hroom. unfold record_sample, find_or_create_stack_sample.
  apply search_samples_None with (i := 0) in Habs. rewrite Habs.
  destruct (Z.leb_spec dep 0); [lia|].
  destruct (Z.leb_spec MAX_STACK_SAMPLES (Z.of_nat (length samples)));
    [lia|].
  destruct (Z.leb_spec 0 (Z.of_nat (length samples))); [|lia].
  rewrite Nat2Z.id.
  replace (length samples) with (length samples + 0)%nat at 1 by lia.
  by rewrite alter_app_r.
Qed.

(** Attribution to a new shape when the table is full: nothing changes. *)
Lemma record_sample_full samples v :
  absent stack dep samples ->
  MAX_STACK_SAMPLES <= Z.of_nat (length samples) ->
  find_or_create_stack_sample samples stack dep = (-1, samples) /\
  record_sample samples stack dep v = samples.
Proof.
  intros Habs Hfull. unfold record_sample, find_or_create_stack_sample.
  apply search_samples_None with (i := 0) in Habs. rewrite Habs.
  destruct (Z.leb_spec MAX_STACK_SAMPLES (Z.of_nat (length samples)));
    [|lia].
  split; [done|]. by destruct (dep <=? 0).
Qed.
End Aggregator.

Lemma search_samples_alter stack dep v (n : nat) samples i :
  search_samples (alter (add_sample_time v) n samples) i stack dep
  = search_samples samples i stack dep.
Proof.
  revert n i. induction samples as [|s samples IH]; intros [|n] i; simpl;
    try done.
  specialize (IH n (i + 1)). unfold alter in IH. by rewrite IH.
Qed.

Lemma add_sample_time_twice v s :
  add_sample_time v (add_sample_time v s) = add_sample_time (2 * v) s.
Proof.
  unfold add_sample_time. simpl. f_equal.
  rewrite u64_add_assoc. f_equal. lia.
Qed.

Lemma record_sample_is_u64 samples stack dep v :
  Forall (fun s => is_u64 (time_ns s)) samples ->
  Forall (fun s => is_u64 (time_ns s)) (record_sample samples stack dep v).
Proof.
  intros Hall. unfold record_sample, find_or_create_stack_sample.
  destruct (dep <=? 0); [done|].
  assert (Hadd : forall l (n : nat),
             Forall (fun s => is_u64 (time_ns s)) l ->
             Forall (fun s => is_u64 (time_ns s))
               (alter (add_sample_time v) n l)).
  { intros l n Hl. apply Forall_alter; [done|].
    intros s _ _. apply u64_add_is_u64. }
  destruct (search_samples samples 0 stack dep) as [k|].
  - destruct (0 <=? k); auto.
  - destruct (MAX_STACK_SAMPLES <=? Z.of_nat (length samples)); simpl.
    + done.
    + assert (Forall (fun s => is_u64 (time_ns s))
                (samples ++ [ {| func_ids := copy_stack stack dep;
                                 depth := dep; time_ns := 0 |} ])).
      { apply Forall_app. split; [done|].
        constructor; [unfold is_u64; simpl; lia | constructor]. }
      destruct (0 <=? Z.of_nat (length samples)); auto.
Qed.

(** Two attributions of the same elapsed value [v], in terms of what the
    search of [find_or_create_stack_sample] answers: a sample is appended
    when the search finds none and the table has room, and the sample the
    search finds gains [2 * v] otherwise. *)
Lemma record_twice_by_search (samples : list StackSample)
    (stack : list Z) (dep v : Z) :
  0 < dep ->
  let twice := record_sample (record_sample samples stack dep v) stack dep v in
  (absent stack dep samples ->
   Z.of_nat (length samples) < MAX_STACK_SAMPLES ->
   twice = samples ++ [ {| func_ids := copy_stack stack dep; depth := dep;
                           time_ns := (2 * v) mod 2 ^ 64 |} ] /\
   length (matching stack dep twice) = 1%nat) /\
  (forall k, search_samples samples 0 stack dep = Some k ->
   twice = alter (add_sample_time (2 * v)) (Z.to_nat k) samples /\
   length twice = length samples /\
   length (matching stack dep twice) = length (matching stack dep samples)).
Proof.
  intros Hdep twice. subst twice. split.
  - intros Habs Hroom.
    rewrite (record_sample_fresh stack dep samples v) by done.
    set (s1 := {| func_ids := copy_stack stack dep; depth := dep;
                  time_ns := u64_add 0 v |}).
    assert (Hs1 : sample_matches stack dep s1 = true)
      by apply copy_stack_matches.
    pose proof (search_samples_fresh stack dep samples s1 0 Habs Hs1) as Hk.
    destruct (record_sample_present stack dep _ v _ Hdep Hk) as [_ ->].
    replace (Z.to_nat (0 + Z.of_nat (length samples)))
      with (length samples + 0)%nat by lia.
    rewrite alter_app_r. simpl. split.
    + do 2 f_equal. unfold add_sample_time, s1. simpl. f_equal.
      rewrite u64_add_assoc. unfold u64_add. f_equal. lia.
    + rewrite matching_app, (matching_absent _ _ _ Habs). simpl.
      unfold matching. simpl.
      by rewrite add_sample_time_matches, Hs1.
  - intros k Hk.
    destruct (record_sample_present stack dep _ v _ Hdep Hk) as [_ ->].
    assert (Hk' : search_samples
                    (alter (add_sample_time v) (Z.to_nat k) samples) 0
                    stack dep = Some k)
      by by rewrite search_samples_alter.
    destruct (record_sample_present stack dep _ v _ Hdep Hk') as [_ ->].
    rewrite list_alter_alter_eq.
    rewrite (list_alter_ext _ (add_sample_time (2 * v)) _ samples);
      [| intros; apply add_sample_time_twice | done].
    repeat split.
    + apply length_alter.
    + apply matching_alter_length.
Qed.

(** C4.  When the sample table holds [MAX_STACK_SAMPLES] samples and the
    shape of the thread's stack is not among them, the search for a sample
    answers [-1] and the attribution returns with the table, and the whole
    state, unchanged. *)
Theorem full_table_drops_new_shape (st : State) (v : Z) :
  MAX_STACK_SAMPLES <= g_num_stack_samples st ->
  absent (tls_current_stack st) (tls_stack_depth st) (g_stack_samples st) ->
  find_or_create_stack_sample (g_stack_samples st) (tls_current_stack st)
    (tls_stack_depth st) = (-1, g_stack_samples st) /\
  g_stack_samples (record_stack_time v st) = g_stack_samples st /\
  record_stack_time v st = st.
Proof.
  intros Hfull Habs.
  destruct (record_sample_full _ _ _ v Habs Hfull) as [Hfind Hrec].
  split; [done|]. unfold record_stack_time. rewrite Hrec.
  split; [done|]. by destruct st.
Qed.

(** ** Call stack tracker *)

(** Splits on the guards of a hook. *)
Ltac hook_guards :=
  repeat match goal with
  | |- context [negb ?b] => destruct b eqn:?; simpl
  | |- context [(?a <? ?b) || (?c <=? ?d)] =>
      destruct (Z.ltb_spec a b); destruct (Z.leb_spec c d); simpl
  | |- context [?a <=? ?b] => destruct (Z.leb_spec a b); simpl
  | |- context [?a =? ?b] => destruct (Z.eqb_spec a b); simpl
  end.

Lemma enter_accepted now f nm st :
  g_initialized st = true -> 0 <= f < MAX_FUNCTIONS ->
  tls_stack_depth st < MAX_CALL_DEPTH ->
  konpeito_profile_enter now f nm st
  = {| g_profiles := alter (register_call nm) (Z.to_nat f) (g_profiles st);
       g_num_functions := g_num_functions st;
       g_output_path := g_output_path st;
       g_initialized := g_initialized st;
       g_stack_samples := g_stack_samples st;
       tls_call_stack :=
         <[Z.to_nat (tls_stack_depth st) :=
             {| func_id := f; entry_time := now |}]> (tls_call_stack st);
       tls_stack_depth := tls_stack_depth st + 1;
       tls_current_stack :=
         <[Z.to_nat (tls_stack_depth st) := f]> (tls_current_stack st) |}.
Proof.
  intros Hinit Hf Hd. unfold konpeito_profile_enter. rewrite Hinit.
  hook_guards; (lia || done).
Qed.


Lemma exit_matched now f st :
  g_initialized st = true -> 0 <= f < MAX_FUNCTIONS ->
  0 < tls_stack_depth st -> func_id (top_frame st) = f ->
  konpeito_profile_exit now f st
  = pop_frame
      (record_stack_time (u64_sub now (entry_time (top_frame st)))
         (add_function_time f (u64_sub now (entry_time (top_frame st))) st)).
Proof.
  intros Hinit Hf Hd Htop. unfold konpeito_profile_exit. rewrite Hinit.
  destruct (top_frame st) as [top_id t0]; simpl in *. subst top_id.
  hook_guards; (lia || done).
Qed.

Lemma exit_mismatched now f st :
  g_initialized st = true -> 0 <= f < MAX_FUNCTIONS ->
  0 < tls_stack_depth st -> func_id (top_frame st) <> f ->
  konpeito_profile_exit now f st = pop_frame st.
Proof.
  intros Hinit Hf Hd Htop. unfold konpeito_profile_exit. rewrite Hinit.
  destruct (top_frame st) as [top_id t0]; simpl in *.
  hook_guards; (lia || done).
Qed.

(** What the hooks never touch. *)
Lemma enter_preserves now f nm st :
  let st' := konpeito_profile_enter now f nm st in
  g_initialized st' = g_initialized st /\
  g_num_functions st' = g_num_functions st /\
  g_output_path st' = g_output_path st /\
  g_stack_samples st' = g_stack_samples st /\
  length (g_profiles st') = length (g_profiles st).
Proof.
  unfold konpeito_profile_enter.
  hook_guards; repeat split; (done || apply length_alter).
Qed.

Lemma exit_preserves now f st :
  let st' := konpeito_profile_exit now f st in
  g_initialized st' = g_initialized st /\
  g_num_functions st' = g_num_functions st /\
  g_output_path st' = g_output_path st /\
  tls_call_stack st' = tls_call_stack st /\
  tls_current_stack st' = tls_current_stack st /\
  length (g_profiles st') = length (g_profiles st) /\
  forall i : nat,
    name (g_profiles st' !!! i) = name (g_profiles st !!! i) /\
    call_count (g_profiles st' !!! i) = call_count (g_profiles st !!! i).
Proof.
  unfold konpeito_profile_exit.
  destruct (top_frame st) as [top_id t0].
  hook_guards; repeat split; try done.
  - apply length_alter.
  - rewrite list_lookup_total_alter.
    by case_decide as Hi; [destruct Hi as [-> _]|].
  - rewrite list_lookup_total_alter.
    by case_decide as Hi; [destruct Hi as [-> _]|].
Qed.

Lemma exit_depth now f st :
  g_initialized st = true -> 0 <= f < MAX_FUNCTIONS ->
  0 < tls_stack_depth st ->
  tls_stack_depth (konpeito_profile_exit now f st) = tls_stack_depth st - 1.
Proof.
  intros Hinit Hf Hd.
  destruct (Z.eq_dec (func_id (top_frame st)) f) as [Heq|Hne].
  - by rewrite exit_matched.
  - by rewrite exit_mismatched.
Qed.

Lemma enter_call_count now f nm st (g : Z) :
  g_initialized st = true -> 0 <= f < MAX_FUNCTIONS ->
  tls_stack_depth st < MAX_CALL_DEPTH ->
  length (g_profiles st) = Z.to_nat MAX_FUNCTIONS ->
  0 <= g < MAX_FUNCTIONS ->
  call_count (g_profiles (konpeito_profile_enter now f nm st) !!! Z.to_nat g)
  = if f =? g then u64_add (call_count (g_profiles st !!! Z.to_nat g)) 1
    else call_count (g_profiles st !!! Z.to_nat g).
Proof.
  intros Hinit Hf Hd Hlen Hg. rewrite enter_accepted by done. simpl.
  rewrite list_lookup_total_alter.
  destruct (Z.eqb_spec f g) as [->|Hne].
  - rewrite decide_True by (split; [done | lia]). done.
  - rewrite decide_False by (intros [? _]; lia). done.
Qed.

Lemma max_depth_ge d hs : (d <= max_depth d hs)%nat.
Proof.
  revert d. induction hs as [|[now f nm|now f] hs IH]; intros d; simpl.
  - done.
  - specialize (IH (S d)). lia.
  - lia.
Qed.

(** The call count of [f] along a well-nested sequence that stays within the
    depth the tracker can hold. *)
Lemma run_hooks_call_count hs : forall st open acc f,
  g_initialized st = true ->
  length (g_profiles st) = Z.to_nat MAX_FUNCTIONS ->
  tls_stack_depth st = Z.of_nat (length open) ->
  is_Some (nesting open hs) ->
  (max_depth (length open) hs <= Z.to_nat MAX_CALL_DEPTH)%nat ->
  ids_in_range hs ->
  0 <= f < MAX_FUNCTIONS ->
  call_count (g_profiles st !!! Z.to_nat f) = acc mod 2 ^ 64 ->
  call_count (g_profiles (run_hooks st hs) !!! Z.to_nat f)
  = (acc + count_enters f hs) mod 2 ^ 64.
Proof.
  induction hs as [|[now g nm|now g] hs IH];
    intros st open acc f Hinit Hlen Hdepth Hnest Hmax Hrange Hf Hacc; simpl.
  - by rewrite Z.add_0_r.
  - inversion Hrange as [|? ? Hg Hrange']; subst. simpl in Hg, Hmax, Hnest.
    pose proof (max_depth_ge (S (length open)) hs) as Hge.
    assert (Hd : tls_stack_depth st < MAX_CALL_DEPTH)
      by (unfold MAX_CALL_DEPTH in *; lia).
    destruct (enter_preserves now g nm st) as (Hi & _ & _ & _ & Hl).
    rewrite Z.add_assoc.
    apply (IH _ (g :: open)); try done.
    + by rewrite Hi.
    + by rewrite Hl.
    + rewrite enter_accepted by done. simpl. lia.
    + rewrite enter_call_count by done. rewrite Hacc.
      destruct (g =? f); [apply u64_add_mod_l|]. by rewrite Z.add_0_r.
  - inversion Hrange as [|? ? Hg Hrange']; subst. simpl in Hg, Hmax, Hnest.
    destruct open as [|g' open']; [by destruct Hnest|].
    destruct (Z.eqb_spec g g') as [->|]; [|by destruct Hnest].
    simpl in Hdepth, Hmax.
    destruct (exit_preserves now g' st) as (Hi & _ & _ & _ & _ & Hl & Hc).
    apply (IH _ open'); try done.
    + by rewrite Hi.
    + by rewrite Hl.
    + rewrite exit_depth by (done || lia). lia.
    + lia.
    + by rewrite (proj2 (Hc _)).
Qed.

(** C1 (amended).  After initialisation, on a thread with no open call, a
    well-nested sequence of enter and exit calls with function ids in range
    that never has more than [MAX_CALL_DEPTH] calls open leaves, for every
    function [f], a call count equal to the number of [enter (f, ...)]
    invocations (as a 64-bit unsigned counter), whatever clock values the
    calls observe. *)
Theorem call_count_counts_enters (st0 : State) (n : Z) (p : option string)
    (hs : list hook) (f : Z) :
  g_initialized st0 = false ->
  tls_stack_depth st0 = 0 ->
  is_Some (nesting [] hs) ->
  ids_in_range hs ->
  (max_depth 0 hs <= Z.to_nat MAX_CALL_DEPTH)%nat ->
  0 <= f < MAX_FUNCTIONS ->
  call_count
    (g_profiles (run_hooks (konpeito_profile_init n p st0) hs) !!! Z.to_nat f)
  = count_enters f hs mod 2 ^ 64.
Proof.
  intros Hinit Hdepth Hnest Hrange Hmax Hf.
  apply (run_hooks_call_count hs _ [] 0); try done;
    unfold konpeito_profile_init; rewrite Hinit;
    cbn [g_initialized g_profiles tls_stack_depth];
    try done; try apply length_replicate.
  rewrite lookup_total_replicate_2; [done|]. lia.
Qed.

(** C2 (amended).  An exit that names a function in range, made while the
    profiler is initialised and the thread's stack is not empty, and whose
    function is not the one of the top frame, changes no function profile
    and no stack sample and lowers the stack depth by exactly one. *)
Theorem mismatched_exit_pops_only (now f : Z) (st : State) :
  g_initialized st = true ->
  0 <= f < MAX_FUNCTIONS ->
  0 < tls_stack_depth st ->
  func_id (top_frame st) <> f ->
  let st' := konpeito_profile_exit now f st in
  g_profiles st' = g_profiles st /\
  g_stack_samples st' = g_stack_samples st /\
  tls_stack_depth st' = tls_stack_depth st - 1 /\
  st' = pop_frame st.
Proof.
  intros Hinit Hf Hd Htop st'. subst st'.
  by rewrite exit_mismatched.
Qed.

(** ** The state invariant holds along every run *)

Lemma wf_initial_state : wf initial_state.
Proof.
  split; cbn [initial_state g_profiles tls_call_stack tls_current_stack
              tls_stack_depth g_stack_samples].
  - apply length_replicate.
  - apply length_replicate.
  - apply length_replicate.
  - unfold MAX_CALL_DEPTH. lia.
  - intros j Hj. lia.
  - constructor.
Qed.

Lemma wf_init n p st : wf st -> wf (konpeito_profile_init n p st).
Proof.
  intros [H1 H2 H3 H4 H5 H6]. unfold konpeito_profile_init.
  destruct (g_initialized st); [done|].
  split; cbn [g_profiles tls_call_stack tls_current_stack tls_stack_depth
              g_stack_samples]; done || apply length_replicate.
Qed.

Lemma wf_enter now f nm st : wf st -> wf (konpeito_profile_enter now f nm st).
Proof.
  intros [H1 H2 H3 H4 H5 H6]. unfold konpeito_profile_enter.
  hook_guards; try done.
  split; cbn [g_profiles tls_call_stack tls_current_stack tls_stack_depth
              g_stack_samples]; try done.
  - by rewrite length_alter.
  - by rewrite length_insert.
  - by rewrite length_insert.
  - lia.
  - intros j Hj.
    destruct (decide (j = Z.to_nat (tls_stack_depth st))) as [->|Hne].
    + rewrite !list_lookup_total_insert_eq by lia. simpl. lia.
    + rewrite !list_lookup_total_insert_ne by done. apply H5. lia.
Qed.

Lemma wf_pop_frame st : wf st -> 0 < tls_stack_depth st -> wf (pop_frame st).
Proof.
  intros [H1 H2 H3 H4 H5 H6] Hd.
  split; cbn [pop_frame g_profiles tls_call_stack tls_current_stack
              tls_stack_depth g_stack_samples]; try done.
  - lia.
  - intros j Hj. apply H5. lia.
Qed.

Lemma wf_record_stack_time v st : wf st -> wf (record_stack_time v st).
Proof.
  intros [H1 H2 H3 H4 H5 H6].
  split; cbn [record_stack_time g_profiles tls_call_stack tls_current_stack
              tls_stack_depth g_stack_samples]; try done.
  by apply record_sample_is_u64.
Qed.

Lemma wf_add_function_time f e st : wf st -> wf (add_function_time f e st).
Proof.
  intros [H1 H2 H3 H4 H5 H6].
  split; cbn [add_function_time g_profiles tls_call_stack tls_current_stack
              tls_stack_depth g_stack_samples]; try done.
  by rewrite length_alter.
Qed.

Lemma wf_exit now f st : wf st -> wf (konpeito_profile_exit now f st).
Proof.
  intros Hwf. unfold konpeito_profile_exit.
  destruct (top_frame st) as [top_id t0].
  hook_guards; try done.
  - apply wf_pop_frame; [|cbn; lia].
    by apply wf_record_stack_time, wf_add_function_time.
  - by apply wf_pop_frame; [|lia].
Qed.

Lemma wf_run_hooks hs : forall st, wf st -> wf (run_hooks st hs).
Proof.
  induction hs as [|[now f nm|now f] hs IH]; intros st Hwf; simpl.
  - done.
  - by apply IH, wf_enter.
  - by apply IH, wf_exit.
Qed.

(** ** Returning from the open frames *)





(** ** Report writer *)

Lemma folded_lines_filter profiles samples :
  omap (folded_line profiles) samples
  = line_of profiles <$> List.filter nonzero_time samples.
Proof.
  induction samples as [|s samples IH]; simpl; [done|].
  unfold folded_line at 1, nonzero_time at 1.
  destruct (time_ns s =? 0); simpl; [apply IH | f_equal; apply IH].
Qed.

Lemma sample_count_pos t : 0 <= t -> 1 <= sample_count t.
Proof.
  intros Ht. unfold sample_count.
  destruct (Z.eqb_spec (t / 1000) 0); [lia|].
  pose proof (Z.div_pos t 1000 Ht). lia.
Qed.

(** The records of the folded file are, in table order, those of the
    samples whose accumulated time is not zero, and the count of each is at
    least 1. *)
Lemma folded_lines_counts (st : State) :
  wf st ->
  folded_lines st
  = line_of (g_profiles st) <$> List.filter nonzero_time (g_stack_samples st)
  /\ Forall (fun l => 1 <= line_samples l) (folded_lines st).
Proof.
  intros Hwf. split; [apply folded_lines_filter|].
  unfold folded_lines. pose proof (wf_samples st Hwf) as Hall.
  induction Hall as [|s samples Hs _ IH]; simpl; [constructor|].
  unfold folded_line at 1. destruct (time_ns s =? 0); simpl; [done|].
  constructor; [|done]. simpl. apply sample_count_pos, Hs.
Qed.

(** C7.  With the output path ["out.json.bak"], which has no [".json"]
    suffix, the folded file is written to ["out.folded"]: the text from the
    first occurrence of [".json"] on is overwritten, whereas the derivation
    by suffix gives ["out.json.bak.folded"]. *)
Theorem folded_path_cuts_at_first_json :
  let st := konpeito_profile_init 10 (Some "out.json.bak"%string)
              initial_state in
  g_output_path st = "out.json.bak"%string /\
  folded_path_of (g_output_path st) = Some "out.folded"%string /\
  write_flame_graph_folded (fun _ => true) st
  = Some (Some ("out.folded"%string, folded_lines st)) /\
  spec_folded_path (g_output_path st) = "out.json.bak.folded"%string.
Proof. vm_compute. done. Qed.

(** C8.  A sample whose outermost entry has no registered name and whose
    next entry has one is written with a leading semicolon: after
    [enter (0, NULL)], [enter (1, "B")] and the two exits, the line of the
    sample [0; 1] reads [";B"], whereas the join of the registered names is
    ["B"]. *)
Theorem folded_line_leading_separator :
  let st :=
    run_hooks (konpeito_profile_init 10 None initial_state)
      [Enter 5 0 None; Enter 7 1 (Some "B"%string); Exit 1007 1; Exit 2005 0]
  in
  g_stack_samples st
  = [ {| func_ids := [0; 1]; depth := 2; time_ns := 1000 |};
      {| func_ids := [0]; depth := 1; time_ns := 2000 |} ] /\
  folded_lines st
  = [ {| line_stack := ";B"; line_samples := 1 |};
      {| line_stack := ""; line_samples := 2 |} ] /\
  folded_text st = (";B 1" +:+ newline +:+ " 2" +:+ newline)%string /\
  spec_stack_names (g_profiles st)
    {| func_ids := [0; 1]; depth := 2; time_ns := 1000 |} = "B"%string.
Proof. vm_compute. done. Qed.

(** The leading separator also appears without any [NULL] name: a new
    initialisation after a finalize clears the names and keeps the samples,
    so the sample [0; 1] of the first session is written with the name of
    function [1] alone. *)
Lemma folded_line_after_reinit :
  folded_lines <$> run (fun _ => true) initial_state two_sessions
  = Some [ {| line_stack := ";B"; line_samples := 2 |};
           {| line_stack := ""; line_samples := 4 |};
           {| line_stack := "B"; line_samples := 1 |} ].
Proof. vm_compute. reflexivity. Qed.

(** ** Initialisation *)






(** ** Functions beyond the configured count *)






(** * The statements at concrete inputs *)

Lemma ids_in_range_nested_calls n f nm :
  0 <= f < MAX_FUNCTIONS -> ids_in_range (nested_calls n f nm).
Proof.
  intros Hf. unfold ids_in_range, nested_calls.
  apply Forall_app. split; by apply Forall_replicate.
Defined.

Lemma call_count_counts_enters_witness :
  g_initialized initial_state = false /\
  tls_stack_depth initial_state = 0 /\
  is_Some (nesting [] (nested_calls 3 0 None)) /\
  ids_in_range (nested_calls 3 0 None) /\
  (max_depth 0 (nested_calls 3 0 None) <= Z.to_nat MAX_CALL_DEPTH)%nat /\
  0 <= 0 < MAX_FUNCTIONS /\
  call_count
    (g_profiles
       (run_hooks (konpeito_profile_init 10 None initial_state)
          (nested_calls 3 0 None)) !!! Z.to_nat 0)
  = count_enters 0 (nested_calls 3 0 None) mod 2 ^ 64.
Proof.
  assert (H1 : is_Some (nesting [] (nested_calls 3 0 None)))
    by (vm_compute; eauto).
  assert (H2 : ids_in_range (nested_calls 3 0 None))
    by (apply ids_in_range_nested_calls; unfold MAX_FUNCTIONS; lia).
  assert (H3 : (max_depth 0 (nested_calls 3 0 None)
                <= Z.to_nat MAX_CALL_DEPTH)%nat) by (vm_compute; lia).
  assert (H4 : 0 <= 0 < MAX_FUNCTIONS) by (unfold MAX_FUNCTIONS; lia).
  exact (conj eq_refl (conj eq_refl (conj H1 (conj H2 (conj H3 (conj H4
           (call_count_counts_enters initial_state 10 None _ 0
              eq_refl eq_refl H1 H2 H3 H4))))))).
Defined.

(** C1, as stated, fails.  One call more than [MAX_CALL_DEPTH] nested calls
    of function [0], all returned from: the sequence is well nested and its
    ids are in range, it holds 257 enters, and the recorded call count is
    256. *)
Lemma deep_nesting_loses_a_call :
  nesting [] too_deep = Some [] /\
  ids_in_range too_deep /\
  count_enters 0 too_deep = 257 /\
  call_count
    (g_profiles
       (run_hooks (konpeito_profile_init 10 None initial_state) too_deep)
     !!! Z.to_nat 0) = 256.
Proof.
  split_and!.
  - vm_compute. reflexivity.
  - apply ids_in_range_nested_calls. unfold MAX_FUNCTIONS. lia.
  - vm_compute. reflexivity.
  - vm_compute. reflexivity.
Qed.

Lemma mismatched_exit_pops_only_witness :
  g_initialized one_open = true /\
  0 <= 4 < MAX_FUNCTIONS /\
  0 < tls_stack_depth one_open /\
  func_id (top_frame one_open) <> 4 /\
  tls_stack_depth (konpeito_profile_exit 9 4 one_open)
  = tls_stack_depth one_open - 1.
Proof.
  assert (H1 : g_initialized one_open = true) by (vm_compute; reflexivity).
  assert (H2 : 0 <= 4 < MAX_FUNCTIONS) by (unfold MAX_FUNCTIONS; lia).
  assert (H3 : 0 < tls_stack_depth one_open) by (vm_compute; reflexivity).
  assert (H4 : func_id (top_frame one_open) <> 4) by (vm_compute; congruence).
  pose proof (mismatched_exit_pops_only 9 4 one_open H1 H2 H3 H4) as H.
  cbv zeta in H. destruct H as (_ & _ & H & _).
  exact (conj H1 (conj H2 (conj H3 (conj H4 H)))).
Defined.

(** C2, as stated, fails.  The stack holds one frame, of function 3; an
    exit that names the id 5000, which no frame can hold, pops nothing. *)
Lemma out_of_range_exit_keeps_frame :
  0 < tls_stack_depth one_open /\
  func_id (top_frame one_open) <> 5000 /\
  tls_stack_depth (konpeito_profile_exit 9 5000 one_open)
  = tls_stack_depth one_open.
Proof. split_and!; vm_compute; congruence. Qed.

Lemma full_table_absent : absent [7] 1 full_table.
Proof.
  apply search_samples_None with (i := 0). vm_compute. reflexivity.
Defined.

Lemma full_table_drops_new_shape_witness :
  MAX_STACK_SAMPLES <= g_num_stack_samples full_state /\
  absent (tls_current_stack full_state) (tls_stack_depth full_state)
    (g_stack_samples full_state) /\
  record_stack_time 5 full_state = full_state.
Proof.
  assert (H1 : MAX_STACK_SAMPLES <= g_num_stack_samples full_state)
    by (vm_compute; congruence).
  assert (H2 : absent (tls_current_stack full_state)
                 (tls_stack_depth full_state) (g_stack_samples full_state)).
  { apply search_samples_None with (i := 0). vm_compute. reflexivity. }
  exact (conj H1 (conj H2
           (proj2 (proj2 (full_table_drops_new_shape full_state 5 H1 H2))))).
Defined.




Lemma wf_one_open : wf one_open.
Proof. apply wf_run_hooks, wf_init, wf_initial_state. Defined.




(** * Further properties of the runtime *)

(** ** Hooks outside a session *)

(** X1.  While the profiler is not initialised, before the first
    initialisation as after a finalize, every sequence of enter and exit
    calls leaves the whole state unchanged. *)
Theorem hooks_without_session_do_nothing (st : State) (hs : list hook) :
  g_initialized st = false -> run_hooks st hs = st.
Proof.
  intros Hinit. induction hs as [|[now f nm|now f] hs IH]; simpl; [done| |].
  - unfold konpeito_profile_enter. by rewrite Hinit.
  - unfold konpeito_profile_exit. by rewrite Hinit.
Qed.

Lemma hooks_without_session_do_nothing_witness :
  g_initialized initial_state = false /\
  run_hooks initial_state [Enter 1 2 (Some "f"%string); Exit 5 2]
  = initial_state.
Proof.
  exact (conj eq_refl
           (hooks_without_session_do_nothing initial_state
              [Enter 1 2 (Some "f"%string); Exit 5 2] eq_refl)).
Defined.

(** X2.  A finalize of an initialised profiler changes nothing but the
    initialised flag; a second finalize writes nothing and changes nothing,
    whatever files can be opened; and the hooks called afterwards do
    nothing. *)
Theorem finalize_ends_session (fopen_ok fopen_ok' : string -> bool)
    (st st' : State) (out : Output) (hs : list hook) :
  g_initialized st = true ->
  konpeito_profile_finalize fopen_ok st = Some (st', out) ->
  st' = clear_initialized st /\
  konpeito_profile_finalize fopen_ok' st'
  = Some (st', {| folded_file := None; json_file := None;
                  console_table := None |}) /\
  run_hooks st' hs = st'.
Proof.
  intros Hinit Hfin. unfold konpeito_profile_finalize in Hfin.
  rewrite Hinit in Hfin. simpl in Hfin.
  assert (Hst' : st' = clear_initialized st).
  { destruct (write_flame_graph_folded fopen_ok st); [|done].
    destruct (fopen_ok (g_output_path st)); by inversion Hfin. }
  subst st'. split_and!; [done | done |].
  induction hs as [|[now f nm|now f] hs IH]; simpl; [done| |].
  - by unfold konpeito_profile_enter.
  - by unfold konpeito_profile_exit.
Qed.

(** ** Names *)

Lemma enter_name now f nm st (i : nat) n :
  name (g_profiles st !!! i) = Some n ->
  name (g_profiles (konpeito_profile_enter now f nm st) !!! i) = Some n.
Proof.
  intros Hn. unfold konpeito_profile_enter. hook_guards; try done.
  cbn [g_profiles]. rewrite list_lookup_total_alter.
  case_decide as Hi; [|done]. destruct Hi as [-> _].
  unfold register_call. cbn [name]. by rewrite Hn.
Qed.

(** X3.  The name of a function is registered once: a cell of the
    function table that holds a name keeps it through every sequence of
    enter and exit calls, whatever names later enters pass. *)
Theorem registered_name_is_kept (hs : list hook) (st : State) (i : nat)
    (n : string) :
  name (g_profiles st !!! i) = Some n ->
  name (g_profiles (run_hooks st hs) !!! i) = Some n.
Proof.
  revert st. induction hs as [|[now f nm|now f] hs IH]; intros st Hn; simpl.
  - done.
  - by apply IH, enter_name.
  - apply IH.
    destruct (exit_preserves now f st) as (_ & _ & _ & _ & _ & _ & Hc).
    by rewrite (proj1 (Hc i)).
Qed.

Lemma registered_name_is_kept_witness :
  name (g_profiles one_open !!! 3%nat) = Some "f"%string /\
  name (g_profiles
          (run_hooks one_open [Enter 7 3 (Some "other"%string); Exit 9 3])
        !!! 3%nat) = Some "f"%string.
Proof.
  assert (H : name (g_profiles one_open !!! 3%nat) = Some "f"%string)
    by (vm_compute; reflexivity).
  exact (conj H (registered_name_is_kept _ one_open 3 "f" H)).
Defined.

Lemma finalize_ends_session_witness :
  g_initialized one_returned = true /\
  is_Some (konpeito_profile_finalize (fun _ => true) one_returned) /\
  run_hooks (clear_initialized one_returned)
    [Enter 1 2 (Some "g"%string); Exit 5 2]
  = clear_initialized one_returned.
Proof.
  assert (H1 : g_initialized one_returned = true) by (vm_compute; reflexivity).
  destruct (konpeito_profile_finalize (fun _ => true) one_returned)
    as [[st' out]|] eqn:E; [|vm_compute in E; discriminate].
  destruct (finalize_ends_session _ (fun _ => false) _ _ _
              [Enter 1 2 (Some "g"%string); Exit 5 2] H1 E) as (-> & _ & H).
  exact (conj H1 (conj (mk_is_Some _ _ eq_refl) H)).
Defined.

(** ** What every run keeps *)

Lemma copy_stack_length stack dep :
  length (copy_stack stack dep) = Z.to_nat dep.
Proof. unfold copy_stack. by rewrite length_fmap, length_seq. Qed.

Lemma shape_alter v (k : nat) (samples : list StackSample) :
  shape <$> alter (add_sample_time v) k samples = shape <$> samples.
Proof.
  rewrite (list_fmap_alter shape (add_sample_time v) id).
  - by apply list_alter_id.
  - by apply Forall_forall.
Qed.

Lemma sample_ok_alter v (k : nat) (samples : list StackSample) :
  Forall sample_ok samples ->
  Forall sample_ok (alter (add_sample_time v) k samples).
Proof. intros H. apply Forall_alter; [done|]. by intros [ids d t] _ Hs. Qed.

(** A sample of the shape of the stack matches the stack. *)
Lemma shape_matches stack dep s :
  shape s = (copy_stack stack dep, dep) -> sample_matches stack dep s = true.
Proof.
  destruct s as [ids d t]. unfold shape. simpl. intros [= -> ->].
  apply copy_stack_matches.
Qed.

Lemma record_sample_keeps stack dep v samples :
  0 < dep <= MAX_CALL_DEPTH ->
  (forall j : nat, (j < Z.to_nat dep)%nat ->
     0 <= stack !!! j < MAX_FUNCTIONS) ->
  Forall sample_ok samples ->
  Z.of_nat (length samples) <= MAX_STACK_SAMPLES ->
  NoDup (shape <$> samples) ->
  let r := record_sample samples stack dep v in
  Forall sample_ok r /\
  Z.of_nat (length r) <= MAX_STACK_SAMPLES /\
  NoDup (shape <$> r).
Proof.
  intros Hdep Hids Hok Hcap Hnd r. subst r.
  destruct (search_samples samples 0 stack dep) as [k|] eqn:Hk.
  - destruct (record_sample_present stack dep samples v k) as [_ ->];
      [lia | done |].
    split_and!.
    + by apply sample_ok_alter.
    + by rewrite length_alter.
    + by rewrite shape_alter.
  - apply search_samples_None in Hk.
    destruct (Z_lt_le_dec (Z.of_nat (length samples)) MAX_STACK_SAMPLES)
      as [Hroom|Hfull].
    + rewrite record_sample_fresh by (done || lia). split_and!.
      * apply Forall_app. split; [done|]. constructor; [|constructor].
        unfold sample_ok. cbn [func_ids depth].
        rewrite copy_stack_length. split_and!; try lia.
        unfold copy_stack. apply Forall_fmap, Forall_seq.
        intros j Hj. apply Hids. lia.
      * rewrite length_app. simpl. lia.
      * rewrite fmap_app. apply NoDup_app. split_and!; [done| |].
        -- intros sh Hsh Hnew. apply list_elem_of_fmap in Hsh as (s & -> & Hs).
           apply list_elem_of_singleton in Hnew.
           apply shape_matches in Hnew.
           unfold absent in Hk. rewrite Forall_forall in Hk.
           specialize (Hk s Hs). cbn [depth] in Hnew. cbv beta in Hk.
           congruence.
        -- apply NoDup_singleton.
    + by rewrite (proj2 (record_sample_full stack dep samples v Hk Hfull)).
Qed.

Lemma wf_clear_initialized st : wf st -> wf (clear_initialized st).
Proof. by intros [H1 H2 H3 H4 H5 H6]. Qed.

Lemma globals_ok_initial_state : globals_ok initial_state.
Proof.
  split; cbn [initial_state g_stack_samples g_output_path g_num_functions
              fmap list_fmap]; unfold g_num_stack_samples;
    cbn [initial_state g_stack_samples length].
  - constructor.
  - unfold MAX_STACK_SAMPLES. lia.
  - constructor.
  - vm_compute. reflexivity.
  - unfold MAX_FUNCTIONS. lia.
Qed.

Lemma globals_ok_init n p st :
  globals_ok st -> globals_ok (konpeito_profile_init n p st).
Proof.
  intros [H1 H2 H3 H4 H5]. unfold konpeito_profile_init.
  destruct (g_initialized st); [done|].
  split; unfold g_num_stack_samples in *;
    cbn [g_stack_samples g_output_path g_num_functions]; try done.
  - destruct p as [p|]; [|done].
    by destruct (Z.ltb_spec (Z.of_nat (String.length p)) PATH_BUFFER_SIZE).
  - destruct (Z.ltb_spec n MAX_FUNCTIONS); lia.
Qed.

Lemma globals_ok_enter now f nm st :
  globals_ok st -> globals_ok (konpeito_profile_enter now f nm st).
Proof.
  intros [H1 H2 H3 H4 H5].
  destruct (enter_preserves now f nm st) as (_ & E2 & E3 & E4 & _).
  split; unfold g_num_stack_samples in *; by rewrite ?E2, ?E3, ?E4.
Qed.

Lemma globals_ok_exit now f st :
  wf st -> globals_ok st -> globals_ok (konpeito_profile_exit now f st).
Proof.
  intros Hwf [H1 H2 H3 H4 H5]. unfold konpeito_profile_exit.
  destruct (top_frame st) as [top_id t0]. hook_guards; try done.
  pose proof (wf_depth st Hwf) as Hd.
  assert (Hids : forall j : nat, (j < Z.to_nat (tls_stack_depth st))%nat ->
                   0 <= tls_current_stack st !!! j < MAX_FUNCTIONS).
  { intros j Hj. by destruct (wf_frames st Hwf j Hj) as [Hr ->]. }
  assert (Hdep : 0 < tls_stack_depth st <= MAX_CALL_DEPTH) by lia.
  destruct (record_sample_keeps (tls_current_stack st) (tls_stack_depth st)
              (u64_sub now t0) (g_stack_samples st) Hdep Hids H1 H2 H3)
    as (K1 & K2 & K3).
  split; unfold g_num_stack_samples;
    cbn [pop_frame record_stack_time add_function_time g_stack_samples
         g_output_path g_num_functions tls_current_stack tls_stack_depth];
    done.
Qed.

Lemma globals_ok_clear_initialized st :
  globals_ok st -> globals_ok (clear_initialized st).
Proof. by intros [H1 H2 H3 H4 H5]. Qed.

Lemma step_keeps fopen_ok st c st' :
  wf st -> globals_ok st -> step fopen_ok st c = Some st' ->
  wf st' /\ globals_ok st'.
Proof.
  intros Hwf Hok. destruct c as [n p|[now f nm|now f]|]; simpl.
  - intros [= <-]. split; [by apply wf_init | by apply globals_ok_init].
  - intros [= <-]. split; [by apply wf_enter | by apply globals_ok_enter].
  - intros [= <-]. split; [by apply wf_exit | by apply globals_ok_exit].
  - unfold konpeito_profile_finalize.
    destruct (g_initialized st); simpl.
    + destruct (write_flame_graph_folded fopen_ok st); [|done].
      destruct (fopen_ok (g_output_path st)); simpl; intros [= <-];
        (split; [by apply wf_clear_initialized
                | by apply globals_ok_clear_initialized]).
    + by intros [= <-].
Qed.

Lemma run_keeps fopen_ok cs : forall st st',
  wf st -> globals_ok st -> run fopen_ok st cs = Some st' ->
  wf st' /\ globals_ok st'.
Proof.
  induction cs as [|c cs IH]; intros st st' Hwf Hok; simpl.
  - by intros [= <-].
  - destruct (step fopen_ok st c) as [st1|] eqn:Hstep; [|done].
    destruct (step_keeps _ _ _ _ Hwf Hok Hstep). by apply IH.
Qed.

(** X4.  The call stack stays within its array: after any sequence of
    calls, on a process that starts in the initial state, the stack depth is
    between [0] and [MAX_CALL_DEPTH], every frame below the depth holds a
    function id between [0] and [MAX_FUNCTIONS - 1], and the shape vector
    holds the same ids as the frames. *)
Theorem call_stack_within_bounds (fopen_ok : string -> bool)
    (cs : list call) (st : State) :
  run fopen_ok initial_state cs = Some st ->
  0 <= tls_stack_depth st <= MAX_CALL_DEPTH /\
  forall j : nat, (j < Z.to_nat (tls_stack_depth st))%nat ->
    0 <= func_id (tls_call_stack st !!! j) < MAX_FUNCTIONS /\
    tls_current_stack st !!! j = func_id (tls_call_stack st !!! j).
Proof.
  intros Hrun.
  destruct (run_keeps _ _ _ _ wf_initial_state globals_ok_initial_state Hrun)
    as [Hwf _].
  split; [apply (wf_depth st Hwf) | apply (wf_frames st Hwf)].
Qed.

(** X5.  The sample table never holds more than [MAX_STACK_SAMPLES]
    samples. *)
Theorem sample_table_within_capacity (fopen_ok : string -> bool)
    (cs : list call) (st : State) :
  run fopen_ok initial_state cs = Some st ->
  g_num_stack_samples st <= MAX_STACK_SAMPLES.
Proof.
  intros Hrun.
  destruct (run_keeps _ _ _ _ wf_initial_state globals_ok_initial_state Hrun)
    as [_ Hok].
  apply (ok_capacity st Hok).
Qed.

(** X6.  The sample table never holds two samples of the same shape: the
    samples at two different positions differ in their id sequence or in
    their depth. *)
Theorem sample_shapes_distinct (fopen_ok : string -> bool)
    (cs : list call) (st : State) (i j : nat) (si sj : StackSample) :
  run fopen_ok initial_state cs = Some st ->
  g_stack_samples st !! i = Some si ->
  g_stack_samples st !! j = Some sj ->
  i <> j ->
  shape si <> shape sj.
Proof.
  intros Hrun Hi Hj Hne Heq.
  destruct (run_keeps _ _ _ _ wf_initial_state globals_ok_initial_state Hrun)
    as [_ Hok].
  pose proof (ok_distinct st Hok) as Hnd.
  apply Hne. eapply NoDup_lookup; [exact Hnd | |].
  - by rewrite list_lookup_fmap, Hi.
  - by rewrite list_lookup_fmap, Hj, Heq.
Qed.

(** X7.  Every sample in the table holds as many ids as its depth says,
    between one and [MAX_CALL_DEPTH] of them, and each id is the index of a
    cell of the function table. *)
Theorem samples_well_formed (fopen_ok : string -> bool)
    (cs : list call) (st : State) (s : StackSample) :
  run fopen_ok initial_state cs = Some st ->
  s ∈ g_stack_samples st ->
  depth s = Z.of_nat (length (func_ids s)) /\
  0 < depth s <= MAX_CALL_DEPTH /\
  Forall (fun id => 0 <= id < Z.of_nat (length (g_profiles st)))
    (func_ids s).
Proof.
  intros Hrun Hs.
  destruct (run_keeps _ _ _ _ wf_initial_state globals_ok_initial_state Hrun)
    as [Hwf Hok].
  pose proof (ok_samples st Hok) as Hall. rewrite Forall_forall in Hall.
  destruct (Hall s Hs) as (H1 & H2 & H3). split_and!; try done; try lia.
  rewrite (wf_profiles st Hwf). eapply Forall_impl; [exact H3|].
  intros id Hid. cbv beta in Hid. unfold MAX_FUNCTIONS in *. lia.
Qed.

(** X8.  The configuration stays within its limits: after any sequence of
    calls the output path is shorter than its buffer, so that the copy made
    by the report writer is the whole path, and the configured function
    count is at most [MAX_FUNCTIONS], so that the reports read cells of the
    function table only. *)
Theorem configuration_within_limits (fopen_ok : string -> bool)
    (cs : list call) (st : State) :
  run fopen_ok initial_state cs = Some st ->
  Z.of_nat (String.length (g_output_path st)) < PATH_BUFFER_SIZE /\
  g_num_functions st <= Z.of_nat (length (g_profiles st)).
Proof.
  intros Hrun.
  destruct (run_keeps _ _ _ _ wf_initial_state globals_ok_initial_state Hrun)
    as [Hwf Hok].
  split; [apply (ok_path st Hok)|].
  rewrite (wf_profiles st Hwf). pose proof (ok_num_functions st Hok).
  unfold MAX_FUNCTIONS in *. lia.
Qed.

Lemma run_two_sessions :
  run (fun _ => true) initial_state two_sessions = Some after_two_sessions.
Proof. vm_compute. reflexivity. Defined.

Lemma call_stack_within_bounds_witness :
  run (fun _ => true) initial_state two_sessions = Some after_two_sessions /\
  0 <= tls_stack_depth after_two_sessions <= MAX_CALL_DEPTH.
Proof.
  exact (conj run_two_sessions
           (proj1 (call_stack_within_bounds _ _ _ run_two_sessions))).
Defined.

Lemma sample_table_within_capacity_witness :
  run (fun _ => true) initial_state two_sessions = Some after_two_sessions /\
  g_num_stack_samples after_two_sessions <= MAX_STACK_SAMPLES.
Proof.
  exact (conj run_two_sessions
           (sample_table_within_capacity _ _ _ run_two_sessions)).
Defined.

Lemma sample_shapes_distinct_witness :
  run (fun _ => true) initial_state two_sessions = Some after_two_sessions /\
  g_stack_samples after_two_sessions !! 0%nat
  = Some {| func_ids := [0; 1]; depth := 2; time_ns := 2000 |} /\
  g_stack_samples after_two_sessions !! 1%nat
  = Some {| func_ids := [0]; depth := 1; time_ns := 4000 |} /\
  0%nat <> 1%nat /\
  shape {| func_ids := [0; 1]; depth := 2; time_ns := 2000 |}
  <> shape {| func_ids := [0]; depth := 1; time_ns := 4000 |}.
Proof.
  assert (H0 : g_stack_samples after_two_sessions !! 0%nat
               = Some {| func_ids := [0; 1]; depth := 2; time_ns := 2000 |})
    by (vm_compute; reflexivity).
  assert (H1 : g_stack_samples after_two_sessions !! 1%nat
               = Some {| func_ids := [0]; depth := 1; time_ns := 4000 |})
    by (vm_compute; reflexivity).
  assert (Hne : 0%nat <> 1%nat) by discriminate.
  exact (conj run_two_sessions (conj H0 (conj H1 (conj Hne
           (sample_shapes_distinct _ _ _ _ _ _ _ run_two_sessions H0 H1
              Hne))))).
Defined.

Lemma samples_well_formed_witness :
  run (fun _ => true) initial_state two_sessions = Some after_two_sessions /\
  {| func_ids := [0; 1]; depth := 2; time_ns := 2000 |}
  ∈ g_stack_samples after_two_sessions /\
  0 < 2 <= MAX_CALL_DEPTH.
Proof.
  assert (H : {| func_ids := [0; 1]; depth := 2; time_ns := 2000 |}
              ∈ g_stack_samples after_two_sessions).
  { apply (list_elem_of_lookup_2 _ 0%nat). vm_compute. reflexivity. }
  exact (conj run_two_sessions (conj H
           (proj1 (proj2 (samples_well_formed _ _ _ _ run_two_sessions H))))).
Defined.

Lemma configuration_within_limits_witness :
  run (fun _ => true) initial_state two_sessions = Some after_two_sessions /\
  Z.of_nat (String.length (g_output_path after_two_sessions))
  < PATH_BUFFER_SIZE.
Proof.
  exact (conj run_two_sessions
           (proj1 (configuration_within_limits _ _ _ run_two_sessions))).
Defined.

(** ** Time attribution *)

Lemma enter_total_time now f nm st (i : nat) :
  total_time_ns (g_profiles (konpeito_profile_enter now f nm st) !!! i)
  = total_time_ns (g_profiles st !!! i).
Proof.
  unfold konpeito_profile_enter. hook_guards; try done.
  cbn [g_profiles]. rewrite list_lookup_total_alter.
  by case_decide as Hi; [destruct Hi as [-> _]|].
Qed.

Lemma frames_hold_enter now f nm st open :
  wf st -> g_initialized st = true -> 0 <= f < MAX_FUNCTIONS ->
  tls_stack_depth st < MAX_CALL_DEPTH ->
  frames_hold st open ->
  frames_hold (konpeito_profile_enter now f nm st) ((f, now) :: open).
Proof.
  intros Hwf Hinit Hf Hd [Hdepth Hframes].
  pose proof (wf_call_stack st Hwf) as Hlen.
  rewrite enter_accepted by done. split; cbn [tls_stack_depth tls_call_stack].
  - simpl. lia.
  - intros [|k] g t Hk; simpl in Hk.
    + injection Hk as <- <-.
      replace (length ((f, now) :: open) - 1)%nat
        with (Z.to_nat (tls_stack_depth st)) by (simpl; lia).
      apply list_lookup_total_insert_eq. lia.
    + pose proof (lookup_lt_Some _ _ _ Hk).
      rewrite list_lookup_total_insert_ne by (simpl; lia).
      replace (length ((f, now) :: open) - S (S k))%nat
        with (length open - S k)%nat by (simpl; lia).
      by apply Hframes.
Qed.

Lemma frames_hold_top st g t0 open :
  frames_hold st ((g, t0) :: open) ->
  top_frame st = {| func_id := g; entry_time := t0 |}.
Proof.
  intros [Hdepth Hframes]. unfold top_frame.
  replace (Z.to_nat (tls_stack_depth st - 1))
    with (length ((g, t0) :: open) - 1)%nat by (simpl in *; lia).
  by apply Hframes.
Qed.

Lemma frames_hold_exit now st g t0 open :
  g_initialized st = true -> 0 <= g < MAX_FUNCTIONS ->
  frames_hold st ((g, t0) :: open) ->
  frames_hold (konpeito_profile_exit now g st) open.
Proof.
  intros Hinit Hg Hfr. pose proof Hfr as [Hdepth Hframes].
  destruct (exit_preserves now g st) as (_ & _ & _ & Hcs & _).
  split.
  - rewrite exit_depth by (done || simpl in Hdepth; lia).
    simpl in Hdepth. lia.
  - intros k g' t Hk. rewrite Hcs.
    replace (length open - S k)%nat
      with (length ((g, t0) :: open) - S (S k))%nat by (simpl; lia).
    by apply Hframes.
Qed.

Lemma exit_total_time now st g t0 open (f : Z) :
  wf st -> g_initialized st = true -> 0 <= g < MAX_FUNCTIONS ->
  0 <= f < MAX_FUNCTIONS ->
  frames_hold st ((g, t0) :: open) ->
  total_time_ns (g_profiles (konpeito_profile_exit now g st) !!! Z.to_nat f)
  = if g =? f
    then u64_add (total_time_ns (g_profiles st !!! Z.to_nat f))
           (u64_sub now t0)
    else total_time_ns (g_profiles st !!! Z.to_nat f).
Proof.
  intros Hwf Hinit Hg Hf Hfr. pose proof (frames_hold_top _ _ _ _ Hfr) as Htop.
  destruct Hfr as [Hdepth _]. pose proof (wf_profiles st Hwf) as Hlen.
  rewrite exit_matched; [|done|done|simpl in Hdepth; lia|by rewrite Htop].
  rewrite Htop.
  cbn [pop_frame record_stack_time add_function_time g_profiles entry_time].
  rewrite list_lookup_total_alter.
  destruct (Z.eqb_spec g f) as [->|Hne].
  - rewrite decide_True by (split; [done | lia]). done.
  - rewrite decide_False by (intros [? _]; lia). done.
Qed.

Lemma run_hooks_time hs : forall st open acc f,
  wf st -> g_initialized st = true ->
  frames_hold st open ->
  is_Some (nesting (open.*1) hs) ->
  (max_depth (length open) hs <= Z.to_nat MAX_CALL_DEPTH)%nat ->
  ids_in_range hs ->
  0 <= f < MAX_FUNCTIONS ->
  total_time_ns (g_profiles st !!! Z.to_nat f) = acc mod 2 ^ 64 ->
  total_time_ns (g_profiles (run_hooks st hs) !!! Z.to_nat f)
  = (acc + time_spent open f hs) mod 2 ^ 64 /\
  forall open', nesting (open.*1) hs = Some open' ->
    tls_stack_depth (run_hooks st hs) = Z.of_nat (length open').
Proof.
  induction hs as [|[now g nm|now g] hs IH];
    intros st open acc f Hwf Hinit Hfr Hnest Hmax Hrange Hf Hacc; simpl.
  - rewrite Z.add_0_r. split; [done|]. intros open' [= <-].
    rewrite length_fmap. apply Hfr.
  - inversion Hrange as [|? ? Hg Hrange']; subst. simpl in Hg, Hmax, Hnest.
    pose proof (max_depth_ge (S (length open)) hs) as Hge.
    assert (Hd : tls_stack_depth st < MAX_CALL_DEPTH).
    { destruct Hfr as [-> _]. unfold MAX_CALL_DEPTH in *. lia. }
    apply (IH _ ((g, now) :: open)); try done.
    + by apply wf_enter.
    + by rewrite (proj1 (enter_preserves now g nm st)).
    + by apply frames_hold_enter.
    + by rewrite enter_total_time.
  - inversion Hrange as [|? ? Hg Hrange']; subst. simpl in Hg, Hmax, Hnest.
    destruct open as [|[g' t0] open']; [by destruct Hnest|].
    simpl in Hnest. simpl.
    destruct (Z.eqb_spec g g') as [->|]; [|by destruct Hnest].
    simpl in Hmax. rewrite Z.add_assoc.
    apply (IH _ open'); try done.
    + by apply wf_exit.
    + by rewrite (proj1 (exit_preserves now g' st)).
    + by apply (frames_hold_exit now st g' t0).
    + lia.
    + rewrite (exit_total_time now st g' t0 open') by done. rewrite Hacc.
      destruct (g' =? f); [apply u64_add_mod_l|]. by rewrite Z.add_0_r.
Qed.

Lemma init_uninitialized n p st :
  g_initialized st = false ->
  let st' := konpeito_profile_init n p st in
  g_initialized st' = true /\
  tls_stack_depth st' = tls_stack_depth st /\
  forall i : nat, (i < Z.to_nat MAX_FUNCTIONS)%nat ->
    g_profiles st' !!! i = zero_profile.
Proof.
  intros Hinit. unfold konpeito_profile_init. rewrite Hinit.
  cbn [g_initialized tls_stack_depth g_profiles]. split_and!; try done.
  intros i Hi. by apply lookup_total_replicate_2.
Qed.

(** X9.  Time is attributed call by call: after initialisation, on a
    thread with no open call, a well-nested sequence of calls with ids in
    range that never has more than [MAX_CALL_DEPTH] calls open leaves, for
    every function [f], a cumulative time equal to the sum over the calls of
    [f] of the clock value at the exit minus the clock value at the enter
    (in 64-bit unsigned arithmetic); the time of a call includes the time of
    the calls made inside it. *)
Theorem total_time_sums_calls (st0 : State) (n : Z) (p : option string)
    (hs : list hook) (f : Z) :
  wf st0 ->
  g_initialized st0 = false ->
  tls_stack_depth st0 = 0 ->
  is_Some (nesting [] hs) ->
  ids_in_range hs ->
  (max_depth 0 hs <= Z.to_nat MAX_CALL_DEPTH)%nat ->
  0 <= f < MAX_FUNCTIONS ->
  total_time_ns
    (g_profiles (run_hooks (konpeito_profile_init n p st0) hs) !!! Z.to_nat f)
  = time_spent [] f hs mod 2 ^ 64.
Proof.
  intros Hwf Hinit Hdepth Hnest Hrange Hmax Hf.
  destruct (init_uninitialized n p st0 Hinit) as (Hi & Hd & Hcells).
  apply (run_hooks_time hs _ [] 0); try done.
  - by apply wf_init.
  - split; [by rewrite Hd|]. intros k g t Hk. by destruct k.
  - rewrite Hcells by lia. done.
Qed.

(** X10.  The stack depth follows the nesting: under the same conditions
    the depth after the sequence is the number of calls it leaves open; a
    sequence that returns from every call it enters brings the depth back to
    [0]. *)
Theorem depth_follows_nesting (st0 : State) (n : Z) (p : option string)
    (hs : list hook) (open : list Z) :
  wf st0 ->
  g_initialized st0 = false ->
  tls_stack_depth st0 = 0 ->
  nesting [] hs = Some open ->
  ids_in_range hs ->
  (max_depth 0 hs <= Z.to_nat MAX_CALL_DEPTH)%nat ->
  tls_stack_depth (run_hooks (konpeito_profile_init n p st0) hs)
  = Z.of_nat (length open).
Proof.
  intros Hwf Hinit Hdepth Hnest Hrange Hmax.
  destruct (init_uninitialized n p st0 Hinit) as (Hi & Hd & Hcells).
  assert (Hf : 0 <= 0 < MAX_FUNCTIONS) by (unfold MAX_FUNCTIONS; lia).
  assert (Hfr : frames_hold (konpeito_profile_init n p st0) []).
  { split; [by rewrite Hd|]. intros k g t Hk. by destruct k. }
  assert (Hsome : is_Some (nesting ([] : list (Z * Z)).*1 hs))
    by (simpl; by rewrite Hnest).
  assert (Hcell : total_time_ns
                    (g_profiles (konpeito_profile_init n p st0) !!! Z.to_nat 0)
                  = 0 mod 2 ^ 64) by (rewrite Hcells by lia; done).
  destruct (run_hooks_time hs _ [] 0 0 (wf_init n p st0 Hwf) Hi Hfr Hsome
              Hmax Hrange Hf Hcell) as [_ H].
  by apply H.
Qed.

Lemma ids_in_range_two_inner_calls : ids_in_range two_inner_calls.
Proof.
  unfold ids_in_range, two_inner_calls.
  repeat (constructor; [simpl; unfold MAX_FUNCTIONS; lia|]). constructor.
Defined.

Lemma total_time_sums_calls_witness :
  wf initial_state /\
  g_initialized initial_state = false /\
  tls_stack_depth initial_state = 0 /\
  is_Some (nesting [] two_inner_calls) /\
  ids_in_range two_inner_calls /\
  (max_depth 0 two_inner_calls <= Z.to_nat MAX_CALL_DEPTH)%nat /\
  0 <= 1 < MAX_FUNCTIONS /\
  total_time_ns
    (g_profiles
       (run_hooks (konpeito_profile_init 10 None initial_state)
          two_inner_calls) !!! Z.to_nat 1)
  = time_spent [] 1 two_inner_calls mod 2 ^ 64.
Proof.
  assert (H1 : is_Some (nesting [] two_inner_calls)) by (vm_compute; eauto).
  assert (H3 : (max_depth 0 two_inner_calls
                <= Z.to_nat MAX_CALL_DEPTH)%nat) by (vm_compute; lia).
  assert (H4 : 0 <= 1 < MAX_FUNCTIONS) by (unfold MAX_FUNCTIONS; lia).
  exact (conj wf_initial_state (conj eq_refl (conj eq_refl (conj H1
           (conj ids_in_range_two_inner_calls (conj H3 (conj H4
              (total_time_sums_calls initial_state 10 None _ 1
                 wf_initial_state eq_refl eq_refl H1
                 ids_in_range_two_inner_calls H3 H4)))))))).
Defined.

Lemma depth_follows_nesting_witness :
  wf initial_state /\
  g_initialized initial_state = false /\
  tls_stack_depth initial_state = 0 /\
  nesting [] two_inner_calls = Some [] /\
  ids_in_range two_inner_calls /\
  (max_depth 0 two_inner_calls <= Z.to_nat MAX_CALL_DEPTH)%nat /\
  tls_stack_depth
    (run_hooks (konpeito_profile_init 10 None initial_state) two_inner_calls)
  = Z.of_nat (length ([] : list Z)).
Proof.
  assert (H1 : nesting [] two_inner_calls = Some []) by reflexivity.
  assert (H3 : (max_depth 0 two_inner_calls
                <= Z.to_nat MAX_CALL_DEPTH)%nat) by (vm_compute; lia).
  exact (conj wf_initial_state (conj eq_refl (conj eq_refl (conj H1
           (conj ids_in_range_two_inner_calls (conj H3
              (depth_follows_nesting initial_state 10 None _ []
                 wf_initial_state eq_refl eq_refl H1
                 ids_in_range_two_inner_calls H3))))))).
Defined.

(** ** Clock *)

Lemma get_time_ns_mod tv_sec tv_nsec :
  get_time_ns tv_sec tv_nsec = (tv_sec * 1000000000 + tv_nsec) mod 2 ^ 64.
Proof.
  unfold get_time_ns, u64_add, u64_mul.
  rewrite Zmult_mod_idemp_l, Zplus_mod_idemp_l, Zplus_mod_idemp_r. done.
Qed.

(** X11.  The elapsed time of a call is exact across a wrap of the
    nanosecond counter: for two readings of the clock whose distance is
    between [0] and [2^64 - 1] nanoseconds, the difference the exit computes
    from the two timestamps is that distance, whatever the readings are. *)
Theorem elapsed_is_clock_distance (sec0 nsec0 sec1 nsec1 : Z) :
  0 <= (sec1 - sec0) * 1000000000 + (nsec1 - nsec0) < 2 ^ 64 ->
  u64_sub (get_time_ns sec1 nsec1) (get_time_ns sec0 nsec0)
  = (sec1 - sec0) * 1000000000 + (nsec1 - nsec0).
Proof.
  intros Hd. rewrite !get_time_ns_mod. unfold u64_sub.
  rewrite Zminus_mod_idemp_l, Zminus_mod_idemp_r.
  replace (sec1 * 1000000000 + nsec1 - (sec0 * 1000000000 + nsec0))
    with ((sec1 - sec0) * 1000000000 + (nsec1 - nsec0)) by lia.
  by apply Z.mod_small.
Qed.

Lemma elapsed_is_clock_distance_witness :
  0 <= (18446744074 - 18446744073) * 1000000000 + (5 - 999999999) < 2 ^ 64 /\
  u64_sub (get_time_ns 18446744074 5) (get_time_ns 18446744073 999999999)
  = (18446744074 - 18446744073) * 1000000000 + (5 - 999999999).
Proof.
  assert (H : 0 <= (18446744074 - 18446744073) * 1000000000
                   + (5 - 999999999) < 2 ^ 64) by lia.
  exact (conj H (elapsed_is_clock_distance _ _ _ _ H)).
Defined.

(** ** JSON strings *)

Lemma write_json_string_body_cons c rest :
  write_json_string_body (String c rest)
  = ((if Ascii.eqb c (ascii_of_nat 34)
      then String "\" (String (ascii_of_nat 34) "")
      else if Ascii.eqb c "\" then "\\"
      else if Ascii.eqb c (ascii_of_nat 10) then "\n"
      else if Ascii.eqb c (ascii_of_nat 13) then "\r"
      else if Ascii.eqb c (ascii_of_nat 9) then "\t"
      else String c "") +:+ write_json_string_body rest)%string.
Proof. done. Qed.

Lemma append_cons c (s1 s2 : string) :
  (String c s1 +:+ s2 = String c (s1 +:+ s2))%string.
Proof. done. Qed.

Lemma append_nil (s : string) : ("" +:+ s = s)%string.
Proof. done. Qed.

Lemma append_char_inj q (s1 : string) : forall s2 : string,
  (s1 +:+ String q "" = s2 +:+ String q "")%string -> s1 = s2.
Proof.
  induction s1 as [|c s1 IH]; intros [|c' s2]; simpl; intros H; try done.
  - injection H as _ H. destruct s2; discriminate.
  - injection H as _ H. destruct s1; discriminate.
  - injection H as -> H. f_equal. by apply IH.
Qed.

Lemma json_unescape_plain c s :
  Ascii.eqb c "\" = false ->
  json_unescape (String c s) = String c (json_unescape s).
Proof. intros H. simpl. by rewrite H. Qed.

Lemma json_unescape_escape e s :
  json_unescape (String "\" (String e s))
  = String (if Ascii.eqb e "n" then ascii_of_nat 10
            else if Ascii.eqb e "r" then ascii_of_nat 13
            else if Ascii.eqb e "t" then ascii_of_nat 9
            else e) (json_unescape s).
Proof. done. Qed.

Lemma json_unescape_body (s : string) :
  json_unescape (write_json_string_body s) = s.
Proof.
  induction s as [|c rest IH]; [done|].
  rewrite write_json_string_body_cons.
  destruct (Ascii.eqb_spec c (ascii_of_nat 34)) as [->|H1];
    [rewrite !append_cons, append_nil; by rewrite json_unescape_escape, IH|].
  destruct (Ascii.eqb_spec c "\") as [->|H2];
    [rewrite !append_cons, append_nil; by rewrite json_unescape_escape, IH|].
  destruct (Ascii.eqb_spec c (ascii_of_nat 10)) as [->|H3];
    [rewrite !append_cons, append_nil; by rewrite json_unescape_escape, IH|].
  destruct (Ascii.eqb_spec c (ascii_of_nat 13)) as [->|H4];
    [rewrite !append_cons, append_nil; by rewrite json_unescape_escape, IH|].
  destruct (Ascii.eqb_spec c (ascii_of_nat 9)) as [->|H5];
    [rewrite !append_cons, append_nil; by rewrite json_unescape_escape, IH|].
  rewrite append_cons, append_nil, json_unescape_plain, IH; [done|].
  by apply Ascii.eqb_neq.
Qed.

(** X12.  The escaping of names loses nothing: two names that are written
    as the same JSON string are the same name, and undoing the five escapes
    in what is written between the quotes gives the name back. *)
Theorem json_escape_round_trip (str str' : string) :
  write_json_string str = write_json_string str' ->
  str = str' /\ json_unescape (write_json_string_body str) = str.
Proof.
  unfold write_json_string. intros [= Heq].
  apply (append_char_inj (ascii_of_nat 34)) in Heq.
  split; [|apply json_unescape_body].
  by rewrite <- (json_unescape_body str), <- (json_unescape_body str'), Heq.
Qed.

Lemma json_escape_round_trip_witness :
  write_json_string "a\b" = write_json_string "a\b" /\
  json_unescape (write_json_string_body "a\b") = "a\b"%string.
Proof.
  exact (conj eq_refl
           (proj2 (json_escape_round_trip "a\b" "a\b" eq_refl))).
Defined.

(** X13.  A JSON string is written on one line: no line feed, carriage
    return or tab character is written, whatever the name holds. *)
Theorem json_string_has_no_line_break (str : string) :
  Forall (fun c => c <> ascii_of_nat 10 /\ c <> ascii_of_nat 13 /\
                   c <> ascii_of_nat 9)
    (list_ascii_of_string (write_json_string str)).
Proof.
  assert (Hbody : forall tail,
    Forall (fun c => c <> ascii_of_nat 10 /\ c <> ascii_of_nat 13 /\
                     c <> ascii_of_nat 9) (list_ascii_of_string tail) ->
    Forall (fun c => c <> ascii_of_nat 10 /\ c <> ascii_of_nat 13 /\
                     c <> ascii_of_nat 9)
      (list_ascii_of_string (write_json_string_body str +:+ tail))).
  { intros tail Htail. induction str as [|c rest IH]; [done|].
    rewrite write_json_string_body_cons.
    destruct (Ascii.eqb_spec c (ascii_of_nat 34)) as [->|H1];
      [rewrite !append_cons, append_nil; simpl;
       repeat (constructor; [done|]); apply IH|].
    destruct (Ascii.eqb_spec c "\") as [->|H2];
      [rewrite !append_cons, append_nil; simpl;
       repeat (constructor; [done|]); apply IH|].
    destruct (Ascii.eqb_spec c (ascii_of_nat 10)) as [->|H3];
      [rewrite !append_cons, append_nil; simpl;
       repeat (constructor; [done|]); apply IH|].
    destruct (Ascii.eqb_spec c (ascii_of_nat 13)) as [->|H4];
      [rewrite !append_cons, append_nil; simpl;
       repeat (constructor; [done|]); apply IH|].
    destruct (Ascii.eqb_spec c (ascii_of_nat 9)) as [->|H5];
      [rewrite !append_cons, append_nil; simpl;
       repeat (constructor; [done|]); apply IH|].
    rewrite append_cons, append_nil. simpl. constructor; [done | apply IH]. }
  unfold write_json_string. simpl. constructor; [done|].
  apply Hbody. simpl. by repeat constructor.
Qed.

(** X14.  Only the quote, the backslash, the line feed, the carriage
    return and the tab are escaped: a name without these characters is
    written as it is between the quotes, other control characters
    included. *)
Theorem json_plain_name_unchanged (str : string) :
  Forall (fun c => json_special c = false) (list_ascii_of_string str) ->
  write_json_string_body str = str.
Proof.
  induction str as [|c rest IH]; [done|]. simpl list_ascii_of_string.
  intros Hall. inversion Hall as [|? ? Hc Hrest]; subst.
  rewrite write_json_string_body_cons. unfold json_special in Hc.
  repeat (apply orb_false_elim in Hc as [Hc ?]).
  repeat match goal with
         | H : Ascii.eqb _ _ = false |- _ => rewrite H; clear H
         end.
  rewrite append_cons, append_nil. by rewrite IH.
Qed.

Lemma json_plain_name_unchanged_witness :
  Forall (fun c => json_special c = false)
    (list_ascii_of_string (String (ascii_of_nat 1) "main")) /\
  write_json_string_body (String (ascii_of_nat 1) "main")
  = String (ascii_of_nat 1) "main".
Proof.
  assert (H : Forall (fun c => json_special c = false)
                (list_ascii_of_string (String (ascii_of_nat 1) "main")))
    by (simpl; repeat constructor).
  exact (conj H (json_plain_name_unchanged _ H)).
Defined.

(** ** Per-function report and console table *)

Lemma total_time_fold (cells : list FunctionProfile) (ids : list nat) :
  forall a,
  (foldl (fun acc i =>
            let p := cells !!! i in
            match name p with
            | Some _ => u64_add acc (total_time_ns p)
            | None => acc
            end) a ids) mod 2 ^ 64
  = (a + sum_times
           (omap (fun i =>
                    let p := cells !!! i in
                    match name p with
                    | None => None
                    | Some nm =>
                        Some {| fn_name := write_json_string nm;
                                fn_calls := call_count p;
                                fn_time_ns := total_time_ns p |}
                    end) ids)) mod 2 ^ 64.
Proof.
  unfold sum_times. induction ids as [|i ids IH]; intros a; simpl.
  - by rewrite Z.add_0_r.
  - rewrite IH. destruct (name (cells !!! i)); simpl; [|done].
    unfold u64_add. rewrite Zplus_mod_idemp_l. f_equal.
    by rewrite <- Z.add_assoc.
Qed.

Lemma total_time_fold_is_u64 (cells : list FunctionProfile)
    (ids : list nat) : forall a,
  is_u64 a ->
  is_u64 (foldl (fun acc i =>
                   let p := cells !!! i in
                   match name p with
                   | Some _ => u64_add acc (total_time_ns p)
                   | None => acc
                   end) a ids).
Proof.
  induction ids as [|i ids IH]; intros a Ha; simpl; [done|].
  apply IH. destruct (name (cells !!! i)); [apply u64_add_is_u64 | done].
Qed.

(** X15.  The total the JSON report prints is the sum of the times of the
    functions it lists, in 64-bit unsigned arithmetic. *)
Theorem total_time_is_sum_of_entries (st : State) :
  total_time st = sum_times (json_functions st) mod 2 ^ 64.
Proof.
  pose proof (total_time_fold (g_profiles st) (reported_ids st) 0) as H.
  rewrite Z.add_0_l in H.
  change (total_time st mod 2 ^ 64
          = sum_times (json_functions st) mod 2 ^ 64) in H.
  rewrite <- H. symmetry. apply Z.mod_small.
  apply (total_time_fold_is_u64 (g_profiles st) (reported_ids st) 0).
  by split.
Qed.

(** X16.  The console table has one row for each object of the JSON
    report, in the same order and with the same calls and time. *)
Theorem console_rows_follow_json (st : State) :
  row_numbers <$> console_rows st = fn_numbers <$> json_functions st.
Proof.
  unfold console_rows, json_functions.
  induction (reported_ids st) as [|i ids IH]; simpl; [done|].
  destruct (name (g_profiles st !!! i)); simpl; [f_equal|]; apply IH.
Qed.

(** ** Strings *)

Lemma substring_0_length (s : string) : forall n,
  String.length (substring 0 n s) = Nat.min n (String.length s).
Proof.
  induction s as [|c s IH]; intros [|n]; simpl; try done.
  by rewrite IH.
Qed.

Lemma substring_0_all (s : string) : forall n,
  (String.length s <= n)%nat -> substring 0 n s = s.
Proof.
  induction s as [|c s IH]; intros [|n] Hn; simpl in *; try done; try lia.
  f_equal. apply IH. lia.
Qed.

Lemma append_length (s1 s2 : string) :
  String.length (s1 +:+ s2) = (String.length s1 + String.length s2)%nat.
Proof.
  induction s1 as [|c s1 IH]; [done|].
  rewrite append_cons. simpl. by rewrite IH.
Qed.

Lemma append_nil_r (s : string) : (s +:+ "" = s)%string.
Proof.
  induction s as [|c s IH]; [done|]. by rewrite append_cons, IH.
Qed.

Lemma substring_0_append (s1 s2 : string) :
  substring 0 (String.length s1) (s1 +:+ s2) = s1.
Proof.
  induction s1 as [|c s1 IH].
  - rewrite append_nil. by destruct s2.
  - rewrite append_cons. simpl. by rewrite IH.
Qed.

Lemma substring_append_r (s1 s2 : string) m :
  substring (String.length s1) m (s1 +:+ s2) = substring 0 m s2.
Proof.
  induction s1 as [|c s1 IH]; [done|]. rewrite append_cons. apply IH.
Qed.

(** X17.  A name in the console table takes at most 40 characters: a
    name of up to 40 characters is shown whole, a longer one is cut to its
    first 37 characters followed by three dots. *)
Theorem truncated_name_fits (nm : string) :
  (String.length (truncated_name nm) <= 40)%nat /\
  ((String.length nm <= 40)%nat -> truncated_name nm = nm) /\
  ((40 < String.length nm)%nat ->
   truncated_name nm = (substring 0 37 nm +:+ "...")%string /\
   String.length (truncated_name nm) = 40%nat).
Proof.
  unfold truncated_name.
  destruct (Nat.ltb_spec 40 (String.length nm)) as [Hlong|Hshort].
  - assert (Hlen : String.length (substring 0 37 nm +:+ "...") = 40%nat).
    { rewrite append_length, substring_0_length.
      change (String.length "...") with 3%nat. lia. }
    split_and!; [lia | lia | done].
  - rewrite substring_0_all by done. split_and!; [done | done | lia].
Qed.

(** ** Path of the folded file *)

(** X19.  When the first occurrence of [".json"] in the output path is
    its suffix, and the path is at most 1021 characters long, the folded
    file is written to the path with that suffix replaced by [".folded"],
    as the derivation by suffix has it. *)
Theorem folded_path_replaces_suffix (q : string) :
  Z.of_nat (String.length q) <= 1016 ->
  index 0 ".json" (q +:+ ".json") = Some (String.length q) ->
  folded_path_of (q +:+ ".json") = Some (q +:+ ".folded")%string /\
  spec_folded_path (q +:+ ".json") = (q +:+ ".folded")%string.
Proof.
  intros Hlen Hidx.
  assert (Hl : String.length (q +:+ ".json") = (String.length q + 5)%nat)
    by by rewrite append_length.
  split.
  - unfold folded_path_of.
    rewrite substring_0_all by (rewrite Hl; unfold PATH_BUFFER_SIZE; lia).
    rewrite Hidx. change (String.length ".folded") with 7%nat.
    destruct (Z.ltb_spec PATH_BUFFER_SIZE
                (Z.of_nat (String.length q) + Z.of_nat 7 + 1));
      [unfold PATH_BUFFER_SIZE in *; lia|].
    by rewrite substring_0_append.
  - unfold spec_folded_path, has_json_suffix. rewrite Hl.
    replace (String.length q + 5 - 5)%nat with (String.length q) by lia.
    rewrite substring_append_r, substring_0_append.
    destruct (Nat.leb_spec 5 (String.length q + 5)); [done | lia].
Qed.

Lemma folded_path_replaces_suffix_witness :
  Z.of_nat (String.length "dir.d/out") <= 1016 /\
  index 0 ".json" ("dir.d/out" +:+ ".json")
  = Some (String.length "dir.d/out") /\
  folded_path_of ("dir.d/out" +:+ ".json")
  = Some ("dir.d/out" +:+ ".folded")%string.
Proof.
  assert (H1 : Z.of_nat (String.length "dir.d/out") <= 1016)
    by (vm_compute; congruence).
  assert (H2 : index 0 ".json" ("dir.d/out" +:+ ".json")
               = Some (String.length "dir.d/out")) by reflexivity.
  exact (conj H1 (conj H2
           (proj1 (folded_path_replaces_suffix "dir.d/out" H1 H2)))).
Defined.

Lemma folded_path_without_json (p : string) :
  Z.of_nat (String.length p) < PATH_BUFFER_SIZE ->
  index 0 ".json" p = None ->
  folded_path_of p
  = Some (p +:+ substring 0 (1023 - String.length p) ".folded")%string.
Proof.
  intros Hlen Hidx. unfold folded_path_of.
  rewrite substring_0_all by (unfold PATH_BUFFER_SIZE in *; lia).
  rewrite Hidx. do 3 f_equal. unfold PATH_BUFFER_SIZE. lia.
Qed.

(** X20.  An output path without [".json"] that is at most 1016
    characters long gets [".folded"] appended. *)
Theorem folded_path_appends (p : string) :
  Z.of_nat (String.length p) <= 1016 ->
  index 0 ".json" p = None ->
  folded_path_of p = Some (p +:+ ".folded")%string.
Proof.
  intros Hlen Hidx.
  rewrite folded_path_without_json by (done || unfold PATH_BUFFER_SIZE; lia).
  do 2 f_equal. apply substring_0_all.
  change (String.length ".folded") with 7%nat. lia.
Qed.

Lemma folded_path_appends_witness :
  Z.of_nat (String.length "profile.out") <= 1016 /\
  index 0 ".json" "profile.out" = None /\
  folded_path_of "profile.out" = Some ("profile.out" +:+ ".folded")%string.
Proof.
  assert (H1 : Z.of_nat (String.length "profile.out") <= 1016)
    by (vm_compute; congruence).
  assert (H2 : index 0 ".json" "profile.out" = None) by reflexivity.
  exact (conj H1 (conj H2 (folded_path_appends "profile.out" H1 H2))).
Defined.

(** X21.  With an output path of 1023 characters that holds no
    [".json"], nothing of [".folded"] fits the buffer: finalize opens the
    folded file and then the JSON report under the same path, the output
    path itself. *)
Theorem longest_path_shared_by_both_files (st : State) :
  g_initialized st = true ->
  String.length (g_output_path st) = 1023%nat ->
  index 0 ".json" (g_output_path st) = None ->
  exists st' out,
    konpeito_profile_finalize (fun _ => true) st = Some (st', out) /\
    fst <$> folded_file out = Some (g_output_path st) /\
    fst <$> json_file out = Some (g_output_path st).
Proof.
  intros Hinit Hlen Hidx.
  assert (Hpath : folded_path_of (g_output_path st)
                  = Some (g_output_path st)).
  { rewrite folded_path_without_json
      by (done || rewrite Hlen; unfold PATH_BUFFER_SIZE; lia).
    rewrite Hlen. replace (1023 - 1023)%nat with 0%nat by lia.
    simpl substring. by rewrite append_nil_r. }
  unfold konpeito_profile_finalize, write_flame_graph_folded.
  rewrite Hinit, Hpath. simpl. eauto.
Qed.

Lemma longest_path_shared_by_both_files_witness :
  g_initialized (konpeito_profile_init 10 (Some longest_path) initial_state)
  = true /\
  String.length
    (g_output_path
       (konpeito_profile_init 10 (Some longest_path) initial_state))
  = 1023%nat /\
  index 0 ".json"
    (g_output_path
       (konpeito_profile_init 10 (Some longest_path) initial_state)) = None /\
  exists st' out,
    konpeito_profile_finalize (fun _ => true)
      (konpeito_profile_init 10 (Some longest_path) initial_state)
    = Some (st', out) /\
    fst <$> folded_file out = Some longest_path /\
    fst <$> json_file out = Some longest_path.
Proof.
  assert (H1 : g_initialized
                 (konpeito_profile_init 10 (Some longest_path) initial_state)
               = true) by reflexivity.
  assert (H2 : String.length
                 (g_output_path
                    (konpeito_profile_init 10 (Some longest_path)
                       initial_state)) = 1023%nat)
    by (vm_compute; reflexivity).
  assert (H3 : index 0 ".json"
                 (g_output_path
                    (konpeito_profile_init 10 (Some longest_path)
                       initial_state)) = None)
    by (vm_compute; reflexivity).
  exact (conj H1 (conj H2 (conj H3
           (longest_path_shared_by_both_files _ H1 H2 H3)))).
Defined.

Lemma truncated_name_fits_witness :
  (40 < String.length "a_function_name_that_is_longer_than_forty_chars")%nat /\
  truncated_name "a_function_name_that_is_longer_than_forty_chars"
  = "a_function_name_that_is_longer_than_f..."%string.
Proof.
  assert (H : (40 < String.length
                      "a_function_name_that_is_longer_than_forty_chars")%nat)
    by (vm_compute; lia).
  exact (conj H
           (proj1 (proj2 (proj2 (truncated_name_fits _)) H))).
Defined.

(** ** Names on a folded line *)

Lemma concat_prefixed (x : string) (l : list string) :
  String.concat ";" (x :: l) = (x +:+ prefixed l)%string.
Proof.
  revert x. induction l as [|y l IH]; intros x.
  - simpl. by rewrite append_nil_r.
  - change (String.concat ";" (x :: y :: l))
      with (x +:+ ";" +:+ String.concat ";" (y :: l))%string.
    by rewrite IH.
Qed.

Lemma write_stack_prefixed (profiles : list FunctionProfile)
    (ids : list Z) (n : nat) : forall j : nat,
  (0 < j)%nat -> (j + n <= length ids)%nat ->
  write_stack profiles ids j n
  = prefixed (omap (fun id : Z => name (profiles !!! Z.to_nat id))
                (take n (drop j ids))).
Proof.
  induction n as [|n IH]; intros j Hj Hlen; [done|].
  destruct (lookup_lt_is_Some_2 ids j) as [id Hid]; [lia|].
  rewrite (drop_S _ _ _ Hid). cbn [take write_stack].
  rewrite (list_lookup_total_correct _ _ _ Hid).
  rewrite IH by lia. cbn [omap list_omap].
  destruct (name (profiles !!! Z.to_nat id)) as [nm|]; [|done].
  destruct (Nat.ltb_spec 0 j); [done | lia].
Qed.

Lemma write_stack_join (profiles : list FunctionProfile)
    (s : StackSample) (nm : string) :
  depth s = Z.of_nat (length (func_ids s)) ->
  name (profiles !!! Z.to_nat (func_ids s !!! 0%nat)) = Some nm ->
  line_stack (line_of profiles s) = spec_stack_names profiles s.
Proof.
  intros Hdepth Hname. unfold line_of, spec_stack_names. cbn [line_stack].
  rewrite Hdepth, Nat2Z.id.
  destruct (func_ids s) as [|id ids] eqn:Hids; [done|].
  change ((id :: ids) !!! 0%nat) with id in Hname.
  rewrite firstn_all. cbn [omap list_omap length write_stack].
  change ((id :: ids) !!! 0%nat) with id. rewrite Hname.
  rewrite concat_prefixed.
  rewrite (write_stack_prefixed profiles (id :: ids) (length ids) 1)
    by (simpl; lia).
  cbn [drop]. by rewrite firstn_all.
Qed.



(** ** Sessions in which every enter passes a name *)

Lemma func_ids_alter v (k : nat) (samples : list StackSample) :
  func_ids <$> alter (add_sample_time v) k samples = func_ids <$> samples.
Proof.
  rewrite (list_fmap_alter func_ids (add_sample_time v) id).
  - by apply list_alter_id.
  - by apply Forall_forall.
Qed.

Lemma record_sample_func_ids stack dep v samples :
  let r := record_sample samples stack dep v in
  func_ids <$> r = func_ids <$> samples \/
  func_ids <$> r = (func_ids <$> samples) ++ [copy_stack stack dep].
Proof.
  intros r. subst r. unfold record_sample.
  destruct (dep <=? 0); [by left|].
  unfold find_or_create_stack_sample.
  destruct (search_samples samples 0 stack dep) as [k|].
  - left. simpl. destruct (0 <=? k); [apply func_ids_alter | done].
  - destruct (MAX_STACK_SAMPLES <=? Z.of_nat (length samples)).
    + by left.
    + right. simpl. destruct (0 <=? Z.of_nat (length samples));
        [rewrite func_ids_alter|]; by rewrite fmap_app.
Qed.

Lemma named_enter now f nm st id :
  named st id -> named (konpeito_profile_enter now f nm st) id.
Proof. intros [n Hn]. exists n. by apply enter_name. Qed.

Lemma named_exit now f st id :
  named (konpeito_profile_exit now f st) id <-> named st id.
Proof.
  unfold named.
  destruct (exit_preserves now f st) as (_ & _ & _ & _ & _ & _ & Hc).
  by rewrite (proj1 (Hc _)).
Qed.

Lemma all_named_enter now f nm st :
  wf st -> all_named st ->
  all_named (konpeito_profile_enter now f (Some nm) st).
Proof.
  intros Hwf [Hframes Hsamples].
  pose proof (wf_profiles st Hwf) as Hlen.
  pose proof (wf_current_stack st Hwf) as Hlen'.
  pose proof (wf_depth st Hwf) as Hdepth.
  split.
  - unfold konpeito_profile_enter. hook_guards; try done.
    cbn [tls_stack_depth tls_current_stack]. intros j Hj.
    destruct (decide (j = Z.to_nat (tls_stack_depth st))) as [->|Hne].
    + rewrite list_lookup_total_insert_eq by lia.
      unfold named. cbn [g_profiles].
      rewrite list_lookup_total_alter_eq by lia.
      unfold register_call. cbn [name].
      destruct (name (g_profiles st !!! Z.to_nat f)); by eexists.
    + rewrite list_lookup_total_insert_ne by done.
      assert (Hold : named st (tls_current_stack st !!! j))
        by (apply Hframes; lia).
      destruct Hold as [n Hn]. exists n. cbn [g_profiles].
      rewrite list_lookup_total_alter. case_decide as Hi; [|done].
      destruct Hi as [Hi _]. rewrite <- Hi in Hn.
      unfold register_call. cbn [name]. by rewrite Hn.
  - destruct (enter_preserves now f (Some nm) st) as (_ & _ & _ & -> & _).
    eapply Forall_impl; [exact Hsamples|]. intros ids Hids.
    eapply Forall_impl; [exact Hids|]. intros id. apply named_enter.
Qed.

Lemma all_named_exit now f st :
  wf st -> all_named st -> all_named (konpeito_profile_exit now f st).
Proof.
  intros Hwf [Hframes Hsamples].
  destruct (exit_preserves now f st) as (_ & _ & _ & _ & Hcur & _).
  pose proof (wf_depth (konpeito_profile_exit now f st) (wf_exit now f st Hwf))
    as Hd'.
  assert (Hle : tls_stack_depth (konpeito_profile_exit now f st)
                <= tls_stack_depth st).
  { unfold konpeito_profile_exit. destruct (top_frame st).
    hook_guards; cbn [pop_frame record_stack_time add_function_time
                      tls_stack_depth]; lia. }
  split.
  - intros j Hj. rewrite Hcur. apply named_exit. apply Hframes. lia.
  - assert (Hstack : Forall (named st)
                       (copy_stack (tls_current_stack st)
                          (tls_stack_depth st))).
    { unfold copy_stack. apply Forall_fmap, Forall_seq.
      intros j Hj. apply Hframes. lia. }
    assert (Hnew : Forall (Forall (named st))
                     (func_ids <$> g_stack_samples
                                     (konpeito_profile_exit now f st))).
    { unfold konpeito_profile_exit. destruct (top_frame st) as [top_id t0].
      hook_guards; try done.
      cbn [pop_frame record_stack_time add_function_time g_stack_samples
           tls_current_stack tls_stack_depth].
      destruct (record_sample_func_ids (tls_current_stack st)
                  (tls_stack_depth st) (u64_sub now t0) (g_stack_samples st))
        as [-> | ->]; [done|].
      apply Forall_app. split; [done|]. by constructor. }
    eapply Forall_impl; [exact Hnew|]. intros ids Hids.
    eapply Forall_impl; [exact Hids|]. intros id. apply named_exit.
Qed.

Lemma run_hooks_keeps hs : forall st,
  wf st -> globals_ok st -> all_named st -> names_given hs ->
  let st' := run_hooks st hs in
  wf st' /\ globals_ok st' /\ all_named st'.
Proof.
  induction hs as [|[now f nm|now f] hs IH]; intros st Hwf Hok Hnamed Hgiven;
    simpl; [done| |];
    inversion Hgiven as [|? ? Hh Hgiven']; subst.
  - destruct nm as [nm|]; [|done].
    apply IH; try done.
    + by apply wf_enter.
    + by apply globals_ok_enter.
    + by apply all_named_enter.
  - apply IH; try done.
    + by apply wf_exit.
    + by apply globals_ok_exit.
    + by apply all_named_exit.
Qed.

(** X23.  In a first session in which every enter passes a name, every
    sample is written with the registered names of all its entries, joined
    by semicolons: after initialisation, on a thread with no open call and
    with an empty sample table, whatever sequence of enter and exit calls
    follows, the names on the folded line of every sample in the table are
    the semicolon-join of the names of its functions. *)
Theorem named_session_gives_joins (st0 : State) (n : Z) (p : option string)
    (hs : list hook) (s : StackSample) :
  wf st0 ->
  globals_ok st0 ->
  g_initialized st0 = false ->
  tls_stack_depth st0 = 0 ->
  g_stack_samples st0 = [] ->
  names_given hs ->
  let st := run_hooks (konpeito_profile_init n p st0) hs in
  s ∈ g_stack_samples st ->
  line_stack (line_of (g_profiles st) s) = spec_stack_names (g_profiles st) s /\
  Forall (named st) (func_ids s).
Proof.
  intros Hwf Hok Hinit Hdepth Hempty Hgiven st Hs.
  assert (Hnamed0 : all_named (konpeito_profile_init n p st0)).
  { unfold konpeito_profile_init. rewrite Hinit. split.
    - cbn [tls_stack_depth]. rewrite Hdepth. intros j Hj. lia.
    - cbn [g_stack_samples]. rewrite Hempty. constructor. }
  destruct (run_hooks_keeps hs _ (wf_init n p st0 Hwf)
              (globals_ok_init n p st0 Hok) Hnamed0 Hgiven)
    as (Hwf' & Hok' & [_ Hsamples]).
  fold st in Hwf', Hok', Hsamples.
  pose proof (ok_samples st Hok') as Hall. rewrite Forall_forall in Hall.
  destruct (Hall s Hs) as (Hd & Hpos & _).
  assert (Hids : Forall (named st) (func_ids s)).
  { rewrite Forall_forall in Hsamples. apply Hsamples.
    by apply list_elem_of_fmap_2. }
  split; [|done].
  destruct (func_ids s) as [|id ids] eqn:Eids; [simpl in Hd; lia|].
  inversion Hids as [|? ? [nm Hnm] _]; subst.
  apply (write_stack_join _ _ nm); [by rewrite Eids|].
  by rewrite Eids.
Qed.

Lemma names_given_two_inner_calls : names_given two_inner_calls.
Proof. unfold names_given, two_inner_calls. by repeat constructor. Defined.

Lemma named_session_gives_joins_witness :
  wf initial_state /\
  globals_ok initial_state /\
  g_initialized initial_state = false /\
  tls_stack_depth initial_state = 0 /\
  g_stack_samples initial_state = [] /\
  names_given two_inner_calls /\
  {| func_ids := [0; 1]; depth := 2; time_ns := 130 |}
  ∈ g_stack_samples
      (run_hooks (konpeito_profile_init 10 None initial_state)
         two_inner_calls) /\
  line_stack
    (line_of
       (g_profiles
          (run_hooks (konpeito_profile_init 10 None initial_state)
             two_inner_calls))
       {| func_ids := [0; 1]; depth := 2; time_ns := 130 |})
  = spec_stack_names
      (g_profiles
         (run_hooks (konpeito_profile_init 10 None initial_state)
            two_inner_calls))
      {| func_ids := [0; 1]; depth := 2; time_ns := 130 |}.
Proof.
  assert (H : {| func_ids := [0; 1]; depth := 2; time_ns := 130 |}
              ∈ g_stack_samples
                  (run_hooks (konpeito_profile_init 10 None initial_state)
                     two_inner_calls)).
  { apply (list_elem_of_lookup_2 _ 0%nat). vm_compute. reflexivity. }
  exact (conj wf_initial_state (conj globals_ok_initial_state (conj eq_refl
           (conj eq_refl (conj eq_refl (conj names_given_two_inner_calls
             (conj H
                (proj1 (named_session_gives_joins initial_state 10 None
                          two_inner_calls _ wf_initial_state
                          globals_ok_initial_state eq_refl eq_refl eq_refl
                          names_given_two_inner_calls H))))))))).
Defined.

(** ** Samples across sessions *)





(** * Deduplication of samples by the ids they hold *)

(** A successful comparison of [n] cells from cell [j] means the cells
    are equal. *)
Lemma ids_match_lookup ids stack (j n : nat) :
  ids_match ids stack j n = true ->
  forall k : nat, (j <= k < j + n)%nat -> ids !!! k = stack !!! k.
Proof.
  revert j. induction n as [|n IH]; intros j H k Hk; [lia|].
  simpl in H. destruct (Z.eqb_spec (ids !!! j) (stack !!! j)) as [E|]; [|done].
  destruct (decide (k = j)) as [->|]; [done|].
  apply (IH (S j)); [done | lia].
Qed.

Lemma copy_stack_take stack dep :
  (Z.to_nat dep <= length stack)%nat ->
  copy_stack stack dep = take (Z.to_nat dep) stack.
Proof.
  intros Hlen. apply list_eq_same_length with (n := Z.to_nat dep).
  - rewrite length_take. lia.
  - apply copy_stack_length.
  - intros i x y Hi Hx Hy.
    apply list_lookup_total_correct in Hx.
    rewrite copy_stack_lookup in Hx by done.
    rewrite lookup_take_lt in Hy by done.
    apply list_lookup_total_correct in Hy. congruence.
Qed.

(** The comparison of [find_or_create_stack_sample] succeeds on exactly the
    samples that hold the ids of the stack, in the same number. *)
Lemma sample_matches_shape stack dep s :
  0 <= dep -> (Z.to_nat dep <= length stack)%nat -> sized s ->
  sample_matches stack dep s = true <-> shape s = stack_shape stack dep.
Proof.
  intros Hdep Hlen Hs. unfold stack_shape. split.
  - unfold sample_matches, shape, sized in *.
    destruct (Z.eqb_spec (depth s) dep) as [Hd|]; [|done].
    intros Hm. f_equal; [|done].
    apply list_eq_same_length with (n := Z.to_nat dep).
    + rewrite length_take. lia.
    + lia.
    + intros i x y Hi Hx Hy.
      apply list_lookup_total_correct in Hx.
      rewrite lookup_take_lt in Hy by done.
      apply list_lookup_total_correct in Hy.
      rewrite <- Hx, <- Hy.
      apply (ids_match_lookup _ _ 0 (Z.to_nat dep) Hm). lia.
  - intros H. apply shape_matches. by rewrite copy_stack_take.
Qed.

Lemma absent_by_shape stack dep samples :
  0 <= dep -> (Z.to_nat dep <= length stack)%nat -> Forall sized samples ->
  Forall (fun s => shape s <> stack_shape stack dep) samples ->
  absent stack dep samples.
Proof.
  intros Hdep Hlen Hsized Hno. unfold absent.
  apply Forall_forall. intros s Hs.
  rewrite Forall_forall in Hsized, Hno.
  destruct (sample_matches stack dep s) eqn:Hm; [|done].
  apply sample_matches_shape in Hm; [|done|done|by apply Hsized].
  by destruct (Hno s Hs).
Qed.

(** The search answers the first position that holds the shape. *)
Lemma search_samples_first stack dep samples (k : nat) s i :
  0 <= dep -> (Z.to_nat dep <= length stack)%nat -> Forall sized samples ->
  samples !! k = Some s -> shape s = stack_shape stack dep ->
  (forall (j : nat) s', (j < k)%nat -> samples !! j = Some s' ->
     shape s' <> stack_shape stack dep) ->
  search_samples samples i stack dep = Some (i + Z.of_nat k).
Proof.
  intros Hdep Hlen Hsized. revert k i.
  induction Hsized as [|s0 samples Hs0 _ IH]; intros k i Hk Hsh Hfirst;
    [done|].
  simpl. destruct k as [|k].
  - injection Hk as ->.
    apply (sample_matches_shape stack dep s Hdep Hlen Hs0) in Hsh.
    rewrite Hsh. f_equal. lia.
  - destruct (sample_matches stack dep s0) eqn:Hm.
    + apply sample_matches_shape in Hm; [|done..].
      by destruct (Hfirst 0%nat s0 ltac:(lia) eq_refl).
    + rewrite (IH k (i + 1)); [f_equal; lia | done | done |].
      intros j s' Hj Hs'. apply (Hfirst (S j) s'); [lia | done].
Qed.

Lemma with_shape_none sh samples :
  Forall (fun s => shape s <> sh) samples -> with_shape sh samples = [].
Proof.
  unfold with_shape. induction 1 as [|s samples Hs _ IH]; [done|].
  by rewrite filter_cons_False.
Qed.

Lemma with_shape_alter_length sh v (n : nat) samples :
  length (with_shape sh (alter (add_sample_time v) n samples))
  = length (with_shape sh samples).
Proof.
  unfold with_shape. revert n.
  induction samples as [|s samples IH]; intros [|n]; try done.
  - change (alter (add_sample_time v) 0%nat (s :: samples))
      with (add_sample_time v s :: samples).
    destruct (decide (shape s = sh)) as [E|E].
    + rewrite !filter_cons_True; done.
    + rewrite !filter_cons_False; done.
  - change (alter (add_sample_time v) (S n) (s :: samples))
      with (s :: alter (add_sample_time v) n samples).
    destruct (decide (shape s = sh)) as [E|E].
    + rewrite !filter_cons_True by done. simpl. by rewrite IH.
    + rewrite !filter_cons_False by done. apply IH.
Qed.

Lemma two_frame_samples_depth i n :
  Forall (fun s => depth s = 2) (two_frame_samples i n).
Proof.
  revert i. induction n as [|n IH]; intros i; simpl; [constructor|].
  constructor; [done | apply IH].
Qed.

(** C3 (amended).  Two attributions of the same elapsed value [v] to the
    stack of the calling thread, whose shape is its first [dep] function
    ids.  When no sample of the table holds these ids in this number (same
    length, equal id by id) and the table holds fewer than
    [MAX_STACK_SAMPLES] samples, the table gains exactly one sample, which
    holds these ids and the time [2 * v] (in 64-bit unsigned arithmetic),
    and it is the only sample of that shape.  When a sample holds them, the
    first such sample gains [2 * v], the table keeps its length and the
    number of samples of that shape stays what it was: no duplicate is
    created. *)
Theorem record_twice_one_sample (samples : list StackSample)
    (stack : list Z) (dep v : Z) :
  0 < dep -> (Z.to_nat dep <= length stack)%nat ->
  Forall sized samples ->
  let target := stack_shape stack dep in
  let twice := record_sample (record_sample samples stack dep v) stack dep v in
  (Forall (fun s => shape s <> target) samples ->
   Z.of_nat (length samples) < MAX_STACK_SAMPLES ->
   twice = samples ++ [ {| func_ids := take (Z.to_nat dep) stack;
                           depth := dep;
                           time_ns := (2 * v) mod 2 ^ 64 |} ] /\
   length (with_shape target twice) = 1%nat) /\
  (forall (k : nat) s,
   samples !! k = Some s -> shape s = target ->
   (forall (j : nat) s', (j < k)%nat -> samples !! j = Some s' ->
      shape s' <> target) ->
   twice = alter (add_sample_time (2 * v)) k samples /\
   length twice = length samples /\
   length (with_shape target twice) = length (with_shape target samples)).
Proof.
  intros Hdep Hlen Hsized target twice.
  destruct (record_twice_by_search samples stack dep v Hdep) as [Hnew Hold].
  fold twice in Hnew, Hold. split.
  - intros Hno Hroom.
    destruct Hnew as [Htwice _];
      [apply absent_by_shape; [lia | done..] | done |].
    rewrite copy_stack_take in Htwice by done.
    split; [done|]. rewrite Htwice. unfold with_shape.
    rewrite filter_app. fold (with_shape target samples).
    rewrite with_shape_none by done.
    by rewrite filter_cons_True.
  - intros k s Hk Hsh Hfirst.
    destruct (Hold (Z.of_nat k)) as (Htwice & Hl & _).
    { by apply (search_samples_first stack dep samples k s 0); [lia|..]. }
    rewrite Nat2Z.id in Htwice. split_and!; [done | done |].
    rewrite Htwice. apply with_shape_alter_length.
Qed.

Lemma record_twice_one_sample_witness :
  (0 < 2 /\ (Z.to_nat 2 <= length stack_1_4)%nat /\
   Forall sized small_table /\
   Forall (fun s => shape s <> stack_shape stack_1_4 2) small_table /\
   Z.of_nat (length small_table) < MAX_STACK_SAMPLES /\
   record_sample (record_sample small_table stack_1_4 2 5) stack_1_4 2 5
   = small_table ++ [ {| func_ids := take (Z.to_nat 2) stack_1_4;
                         depth := 2;
                         time_ns := (2 * 5) mod 2 ^ 64 |} ] /\
   length (with_shape (stack_shape stack_1_4 2)
             (record_sample (record_sample small_table stack_1_4 2 5)
                stack_1_4 2 5)) = 1%nat) /\
  ((Z.to_nat 2 <= length stack_1_3)%nat /\
   small_table !! 2%nat
   = Some {| func_ids := [1; 3]; depth := 2; time_ns := 9 |} /\
   record_sample (record_sample small_table stack_1_3 2 5) stack_1_3 2 5
   = alter (add_sample_time (2 * 5)) 2%nat small_table /\
   length (record_sample (record_sample small_table stack_1_3 2 5)
             stack_1_3 2 5) = length small_table /\
   length (with_shape (stack_shape stack_1_3 2)
             (record_sample (record_sample small_table stack_1_3 2 5)
                stack_1_3 2 5))
   = length (with_shape (stack_shape stack_1_3 2) small_table)).
Proof.
  assert (H1 : 0 < 2) by lia.
  assert (H2 : (Z.to_nat 2 <= length stack_1_4)%nat) by (vm_compute; lia).
  assert (H3 : Forall sized small_table) by (repeat constructor).
  assert (H4 : Forall (fun s => shape s <> stack_shape stack_1_4 2)
                 small_table)
    by (repeat (constructor; [vm_compute; intros [=]|]); constructor).
  assert (H5 : Z.of_nat (length small_table) < MAX_STACK_SAMPLES)
    by (vm_compute; reflexivity).
  assert (H6 : (Z.to_nat 2 <= length stack_1_3)%nat) by (vm_compute; lia).
  assert (H7 : small_table !! 2%nat
               = Some {| func_ids := [1; 3]; depth := 2; time_ns := 9 |})
    by reflexivity.
  assert (H8 : shape {| func_ids := [1; 3]; depth := 2; time_ns := 9 |}
               = stack_shape stack_1_3 2) by reflexivity.
  assert (H9 : forall (j : nat) s', (j < 2)%nat ->
                 small_table !! j = Some s' ->
                 shape s' <> stack_shape stack_1_3 2).
  { intros [|[|j]] s' Hj; [| |lia]; intros [= <-]; vm_compute; intros [=]. }
  exact (conj
    (conj H1 (conj H2 (conj H3 (conj H4 (conj H5
       (proj1 (record_twice_one_sample small_table stack_1_4 2 5 H1 H2 H3)
          H4 H5))))))
    (conj H6 (conj H7
       (proj2 (record_twice_one_sample small_table stack_1_3 2 5 H1 H6 H3)
          2%nat _ H7 H8 H9)))).
Defined.

(** The two branches of that statement at [small_table]: the shape
    [1; 4] is new and is appended with the time 10; the shape [1; 3] is
    held by the third sample only, which gains 10, although the first
    sample has the same length and the same first id. *)
Lemma small_table_twice :
  record_sample (record_sample small_table stack_1_4 2 5) stack_1_4 2 5
  = small_table ++ [ {| func_ids := [1; 4]; depth := 2; time_ns := 10 |} ] /\
  record_sample (record_sample small_table stack_1_3 2 5) stack_1_3 2 5
  = [ {| func_ids := [1; 2]; depth := 2; time_ns := 40 |};
      {| func_ids := [1]; depth := 1; time_ns := 7 |};
      {| func_ids := [1; 3]; depth := 2; time_ns := 19 |} ].
Proof. split; vm_compute; reflexivity. Qed.

(** C3, as stated, fails.  The table holds [MAX_STACK_SAMPLES] samples,
    each of two ids, so none has the shape of a stack that holds the single
    id 7; after two attributions of the same value to that stack the table
    still holds no sample of its shape. *)
Lemma full_table_holds_no_sample :
  let stack := <[0%nat := 7]> (replicate (Z.to_nat MAX_CALL_DEPTH) 0) in
  let twice := record_sample (record_sample full_table stack 1 5) stack 1 5 in
  Z.of_nat (length full_table) = MAX_STACK_SAMPLES /\
  stack_shape stack 1 = ([7], 1) /\
  Forall (fun s => shape s <> ([7], 1)) full_table /\
  twice = full_table /\
  with_shape ([7], 1) twice = [].
Proof.
  intros stack twice.
  assert (Hno : Forall (fun s => shape s <> ([7], 1)) full_table).
  { eapply Forall_impl; [apply two_frame_samples_depth|].
    intros s Hs. unfold shape. intros [= _ E]. simpl in Hs. lia. }
  assert (Hlen : Z.of_nat (length full_table) = MAX_STACK_SAMPLES)
    by (vm_compute; reflexivity).
  assert (Habs : absent stack 1 full_table).
  { apply search_samples_None with (i := 0). vm_compute. reflexivity. }
  assert (Htwice : twice = full_table).
  { unfold twice.
    assert (Hfull : MAX_STACK_SAMPLES <= Z.of_nat (length full_table))
      by (rewrite Hlen; lia).
    by rewrite !(proj2 (record_sample_full stack 1 full_table 5 Habs
                          Hfull)). }
  split_and!; [done | done | done | done |].
  rewrite Htwice. by apply with_shape_none.
Qed.

(** * The lines of the folded file *)


















